(** * financial_data_pipeline.py: the FinancialDataPipeline class

    A shallow embedding of [src/financial_data_pipeline.py] and the
    properties of its Validate -> Transform -> Load pipeline.

    The three libraries the class drives are modelled as far as the class
    uses them:

    - [Float64]: float64 values (NaN, finite, infinite) with the arithmetic
      of [pct_change], rounded to nearest as IEEE 754 has it, and the
      comparisons of the outlier filter;
    - [Pandas]: a DataFrame as a list of column labels and a list of rows,
      with the operations of [validate_data] and [process_data];
    - [OracleDB]: the [stock_data] table behind one connection, with its
      primary key, the open transaction and [commit].

    Python exceptions are an explicit [outcome]; logging is a writer. *)

From Stdlib Require Import List String Ascii ZArith QArith Qabs Bool Lia.
Import ListNotations.

Local Open Scope string_scope.
Local Open Scope list_scope.

(* ===================================================================== *)
(** * Python: exceptions and logging *)
(* ===================================================================== *)

(** The exceptions that the modelled calls raise.  [OracleError] stands for
    [oracledb.Error] and its subclasses and carries the ORA- number; every
    other constructor is an exception outside that hierarchy. *)
Inductive exn : Type :=
| KeyError (label : string)
| ValueError
| TypeError
| AttributeError
| ProviderError (reason : string)
| OracleError (ora : Z).

(** [except Exception] catches everything modelled here. *)
Definition is_Exception (e : exn) : bool := true.

(** [except oracledb.Error] catches database errors only. *)
Definition is_oracledb_Error (e : exn) : bool :=
  match e with
  | OracleError _ => true
  | _ => false
  end.

Inductive outcome (A : Type) : Type :=
| Return (a : A)
| Raise (e : exn).
Arguments Return {A} a.
Arguments Raise {A} e.

Definition obind {A B : Type} (o : outcome A) (k : A -> outcome B) : outcome B :=
  match o with
  | Return a => k a
  | Raise e => Raise e
  end.

(* ===================================================================== *)
(** * float64 *)
(* ===================================================================== *)

Module Float64.

(** A float64 is NaN, a finite value or an infinity.  A finite value is
    held as the rational it stands for; signed zeros are not
    distinguished. *)
Inductive t : Type :=
| NaN
| Fin (q : Q)
| Inf (negative : bool).

Definition Qltb (x y : Q) : bool := negb (Qle_bool y x).

(** [n / d] for a positive [d], rounded to the nearest integer, a tie
    going to the even one. *)
Definition nearest_even (n d : Z) : Z :=
  let q := (n / d)%Z in
  match (2 * (n mod d) ?= d)%Z with
  | Lt => q
  | Gt => (q + 1)%Z
  | Eq => if Z.even q then q else (q + 1)%Z
  end.

(** The float64 that an operation returns for the exact result [x]:
    binary64 has 53 bits of precision and the exponent of its last place
    runs from -1074 (the subnormals) to 971; rounding is to nearest, ties
    to even, and a result that rounds beyond the largest finite value
    overflows to an infinity. *)
Definition round (x : Q) : t :=
  let n := Qnum x in
  let d := Zpos (Qden x) in
  if (n =? 0)%Z then Fin 0
  else
    let a := Z.abs n in
    let e0 := (Z.log2 a - Z.log2 d - 52)%Z in
    let e1 :=
      if (a * 2 ^ Z.max 0 (- e0) <? 2 ^ 52 * (d * 2 ^ Z.max 0 e0))%Z
      then (e0 - 1)%Z
      else e0 in
    let e := Z.max e1 (-1074) in
    let m := nearest_even (a * 2 ^ Z.max 0 (- e)) (d * 2 ^ Z.max 0 e) in
    if (2 ^ 1024 <=? m * 2 ^ Z.max 0 e)%Z
    then Inf (n <? 0)%Z
    else Fin (Qred (Qmake (Z.sgn n * m * 2 ^ Z.max 0 e)
                          (Z.to_pos (2 ^ Z.max 0 (- e))))).

(** IEEE division: [x / 0] is an infinity, [0 / 0] and [inf / inf] are
    NaN, and a finite quotient is rounded. *)
Definition div (a b : t) : t :=
  match a, b with
  | NaN, _ => NaN
  | _, NaN => NaN
  | Inf _, Inf _ => NaN
  | Inf s, Fin y => Inf (xorb s (Qltb y 0))
  | Fin _, Inf _ => Fin 0
  | Fin x, Fin y =>
      if Qeq_bool y 0
      then (if Qeq_bool x 0 then NaN else Inf (Qltb x 0))
      else round (x / y)
  end.

(** IEEE subtraction; a finite difference is rounded. *)
Definition sub (a b : t) : t :=
  match a, b with
  | NaN, _ => NaN
  | _, NaN => NaN
  | Inf s, Inf s' => if Bool.eqb s s' then NaN else Inf s
  | Inf s, Fin _ => Inf s
  | Fin _, Inf s => Inf (negb s)
  | Fin x, Fin y => round (x - y)
  end.

Definition abs (a : t) : t :=
  match a with
  | NaN => NaN
  | Fin x => Fin (Qabs x)
  | Inf _ => Inf false
  end.

(** [a > b]: false whenever [a] is NaN. *)
Definition gt (a : t) (b : Q) : bool :=
  match a with
  | NaN => false
  | Fin x => Qltb b x
  | Inf s => negb s
  end.

(** [a <= b]: false whenever [a] is NaN. *)
Definition le (a : t) (b : Q) : bool :=
  match a with
  | NaN => false
  | Fin x => Qle_bool x b
  | Inf s => s
  end.

End Float64.

(* ===================================================================== *)
(** * pandas *)
(* ===================================================================== *)

Module Pandas.

(** What a DataFrame cell can hold: a float, a datetime64 value
    ([Timestamp], reduced to its calendar day, or the missing [NaT]), a
    string, or Python's [None]. *)
Inductive Cell : Type :=
| Float (x : Float64.t)
| Timestamp (year month day : Z)
| NaT
| Str (s : string)
| PyNone.

(** [pd.isnull] on one cell. *)
Definition isnull (c : Cell) : bool :=
  match c with
  | Float Float64.NaN => true
  | NaT => true
  | PyNone => true
  | _ => false
  end.

(** A row maps column labels to cells; a label that is absent from the
    row reads as NaN, as pandas fills it when the frame is built. *)
Definition Row : Type := list (string * Cell).

Record DataFrame : Type := mkFrame {
  columns : list string;
  rows : list Row
}.

Fixpoint lookup (c : string) (r : Row) : option Cell :=
  match r with
  | [] => None
  | (k, v) :: r' => if String.eqb k c then Some v else lookup c r'
  end.

Definition at_ (r : Row) (c : string) : Cell :=
  match lookup c r with
  | Some v => v
  | None => Float Float64.NaN
  end.

Fixpoint upd (c : string) (v : Cell) (r : Row) : Row :=
  match r with
  | [] => [(c, v)]
  | (k, x) :: r' => if String.eqb k c then (k, v) :: r' else (k, x) :: upd c v r'
  end.

Definition has_column (c : string) (df : DataFrame) : bool :=
  existsb (String.eqb c) (columns df).

(** [df.empty]: an axis of length zero. *)
Definition empty (df : DataFrame) : bool :=
  match columns df, rows df with
  | [], _ => true
  | _, [] => true
  | _, _ => false
  end.

(** [df[c]]: the column as a Series, [KeyError] when there is none. *)
Definition getitem (c : string) (df : DataFrame) : outcome (list Cell) :=
  if has_column c df
  then Return (map (fun r => at_ r c) (rows df))
  else Raise (KeyError c).

Definition first_missing (cs : list string) (df : DataFrame) : option string :=
  find (fun c => negb (has_column c df)) cs.

(** [df[[c1, ..., cn]]]: projection, [KeyError] on a missing label. *)
Definition select (cs : list string) (df : DataFrame) : outcome DataFrame :=
  match first_missing cs df with
  | Some c => Raise (KeyError c)
  | None =>
      Return (mkFrame cs (map (fun r => map (fun c => (c, at_ r c)) cs) (rows df)))
  end.

Definition row_has_null (cs : list string) (r : Row) : bool :=
  existsb (fun c => isnull (at_ r c)) cs.

(** [df.isnull().any().any()] *)
Definition isnull_any_any (df : DataFrame) : bool :=
  existsb (row_has_null (columns df)) (rows df).

(** [df.dropna()]: with no [subset], a null in any column drops the row. *)
Definition dropna (df : DataFrame) : DataFrame :=
  mkFrame (columns df)
          (filter (fun r => negb (row_has_null (columns df) r)) (rows df)).

Definition add_label (c : string) (cs : list string) : list string :=
  if existsb (String.eqb c) cs then cs else cs ++ [c].

(** [df[c] = scalar] *)
Definition setitem_scalar (c : string) (v : Cell) (df : DataFrame) : DataFrame :=
  mkFrame (add_label c (columns df)) (map (upd c v) (rows df)).

(** [df[c] = series]: the lengths must agree. *)
Definition setitem (c : string) (vs : list Cell) (df : DataFrame)
  : outcome DataFrame :=
  if Nat.eqb (List.length vs) (List.length (rows df))
  then Return (mkFrame (add_label c (columns df))
                       (map (fun rv => upd c (snd rv) (fst rv))
                            (combine (rows df) vs)))
  else Raise ValueError.

(** [df[mask]]: the rows where the boolean Series is true. *)
Definition loc (mask : list bool) (df : DataFrame) : DataFrame :=
  mkFrame (columns df) (map fst (filter snd (combine (rows df) mask))).

Fixpoint traverse {A B : Type} (f : A -> outcome B) (xs : list A)
  : outcome (list B) :=
  match xs with
  | [] => Return []
  | x :: xs' =>
      obind (f x) (fun y => obind (traverse f xs') (fun ys => Return (y :: ys)))
  end.

Definition to_float (c : Cell) : outcome Float64.t :=
  match c with
  | Float x => Return x
  | _ => Raise TypeError
  end.

Fixpoint changes (prev : Float64.t) (xs : list Float64.t) : list Float64.t :=
  match xs with
  | [] => []
  | x :: xs' =>
      Float64.sub (Float64.div x prev) (Float64.Fin 1) :: changes x xs'
  end.

(** [s / s.shift(1) - 1] on floats: the first entry has no predecessor. *)
Definition pct_change_floats (xs : list Float64.t) : list Float64.t :=
  match xs with
  | [] => []
  | x :: xs' => Float64.NaN :: changes x xs'
  end.

(** [s.pct_change()]; arithmetic on a non-numeric cell is a [TypeError].
    The Series this is applied to holds no null (see [validate_data]),
    so the fill that older pandas performs first changes nothing. *)
Definition pct_change (s : list Cell) : outcome (list Cell) :=
  obind (traverse to_float s)
        (fun xs => Return (map Float (pct_change_floats xs))).

(** [abs(s)] *)
Definition series_abs (s : list Cell) : outcome (list Cell) :=
  obind (traverse to_float s)
        (fun xs => Return (map (fun x => Float (Float64.abs x)) xs)).

(** [s > q] and [s <= q] *)
Definition series_gt (s : list Cell) (q : Q) : outcome (list bool) :=
  obind (traverse to_float s)
        (fun xs => Return (map (fun x => Float64.gt x q) xs)).

Definition series_le (s : list Cell) (q : Q) : outcome (list bool) :=
  obind (traverse to_float s)
        (fun xs => Return (map (fun x => Float64.le x q) xs)).

Fixpoint new_label (mapping : list (string * string)) (c : string) : string :=
  match mapping with
  | [] => c
  | (old, new) :: m' => if String.eqb old c then new else new_label m' c
  end.

(** [df.rename(columns=mapping)] *)
Definition rename (mapping : list (string * string)) (df : DataFrame)
  : DataFrame :=
  mkFrame (map (new_label mapping) (columns df))
          (map (map (fun kv => (new_label mapping (fst kv), snd kv))) (rows df)).

Definition digit (n : Z) : string :=
  String (ascii_of_nat (48 + Z.to_nat (n mod 10))) "".

Definition pad2 (n : Z) : string := digit (n / 10) ++ digit n.

Definition pad4 (n : Z) : string := digit (n / 1000) ++ digit (n / 100) ++ pad2 n.

Definition is_datetimelike (c : Cell) : bool :=
  match c with
  | Timestamp _ _ _ => true
  | NaT => true
  | _ => false
  end.

(** ['%Y-%m-%d'] on one datetime64 value; [NaT] formats to NaN. *)
Definition strftime_Ymd (c : Cell) : Cell :=
  match c with
  | Timestamp y m d => Str (pad4 y ++ "-" ++ pad2 m ++ "-" ++ pad2 d)
  | _ => Float Float64.NaN
  end.

(** [s.dt.strftime('%Y-%m-%d')].  The [.dt] accessor exists on a
    datetime64 Series only, that is, one whose every cell is a
    [Timestamp] or [NaT]; on any other Series it is an
    [AttributeError]. *)
Definition dt_strftime_Ymd (s : list Cell) : outcome (list Cell) :=
  if forallb is_datetimelike s
  then Return (map strftime_Ymd s)
  else Raise AttributeError.

(** [df.to_numpy()]: the rows as arrays of cells, in column order. *)
Definition to_numpy (df : DataFrame) : list (list Cell) :=
  map (fun r => map (at_ r) (columns df)) (rows df).

(** The result of [Ticker.history]: a frame whose index (the trading
    day) is kept apart from its columns, one index value per row. *)
Record IndexedFrame : Type := mkIndexed {
  index_name : string;
  labels : list string;
  indexed_rows : list (Cell * Row)
}.

(** [df.reset_index()]: the index becomes the first column; a column
    with the index's name already there is a [ValueError]. *)
Definition reset_index (f : IndexedFrame) : outcome DataFrame :=
  if existsb (String.eqb (index_name f)) (labels f)
  then Raise ValueError
  else Return (mkFrame (index_name f :: labels f)
                       (map (fun ir => (index_name f, fst ir) :: snd ir)
                            (indexed_rows f))).

End Pandas.

(* ===================================================================== *)
(** * Oracle: the stock_data table behind one connection *)
(* ===================================================================== *)

Module OracleDB.

(** One row of [stock_data]; [None] is SQL NULL. *)
Record DbRow : Type := mkRow {
  stock_date : option string;
  ticker : option string;
  open : option Q;
  high : option Q;
  low : option Q;
  close : option Q;
  volume : option Q
}.

(** A connection sees the committed table ([None] while the table does
    not exist) and the rows its open transaction has inserted; other
    sessions see the committed table only. *)
Record Connection : Type := mkConn {
  stock_data : option (list DbRow);
  uncommitted : list DbRow
}.

Definition committed_rows (c : Connection) : list DbRow :=
  match stock_data c with
  | Some t => t
  | None => []
  end.

Definition session_rows (c : Connection) : list DbRow :=
  committed_rows c ++ uncommitted c.

(** What the class does not decide and the driver does: how a Python
    tuple is bound to the seven placeholders of the INSERT (or which
    error refuses it), and whether the rows of a batch that were
    inserted before a failing row stay in the transaction. *)
Record Driver : Type := mkDriver {
  bind_tuple : list Pandas.Cell -> DbRow + Z;
  keeps_rows_before_error : bool
}.

(** Oracle reads the empty string as NULL. *)
Definition varchar_null (v : option string) : bool :=
  match v with
  | None => true
  | Some s => String.eqb s ""
  end.

Definition varchar_fits (n : nat) (v : option string) : bool :=
  match v with
  | None => true
  | Some s => Nat.leb (String.length s) n
  end.

Definition varchar_eqb (a b : option string) : bool :=
  match a, b with
  | Some x, Some y => String.eqb x y
  | _, _ => false
  end.

Definition same_key (r r' : DbRow) : bool :=
  varchar_eqb (stock_date r) (stock_date r') && varchar_eqb (ticker r) (ticker r').

(** The constraints of the CREATE TABLE statement, checked for one new
    row against the rows the session sees: both key columns NOT NULL
    (ORA-01400), VARCHAR2(10) (ORA-12899), and the primary key
    [pk_stock_data] on (stock_date, ticker) (ORA-00001). *)
Definition violation (seen : list DbRow) (r : DbRow) : option Z :=
  if varchar_null (stock_date r) || varchar_null (ticker r) then Some 1400%Z
  else if negb (varchar_fits 10 (stock_date r) && varchar_fits 10 (ticker r))
  then Some 12899%Z
  else if existsb (same_key r) seen then Some 1%Z
  else None.

(** INSERT of the bound rows one after the other, stopping at the first
    one that is refused. *)
Fixpoint insert_rows (c : Connection) (rs : list DbRow)
  : outcome unit * Connection :=
  match rs with
  | [] => (Return tt, c)
  | r :: rs' =>
      match stock_data c with
      | None => (Raise (OracleError 942), c)
      | Some t =>
          match violation (session_rows c) r with
          | Some ora => (Raise (OracleError ora), c)
          | None => insert_rows (mkConn (Some t) (uncommitted c ++ [r])) rs'
          end
      end
  end.

Fixpoint bind_all (drv : Driver) (tuples : list (list Pandas.Cell))
  : list DbRow + Z :=
  match tuples with
  | [] => inl []
  | t :: ts =>
      match bind_tuple drv t with
      | inr ora => inr ora
      | inl r =>
          match bind_all drv ts with
          | inr ora => inr ora
          | inl rs => inl (r :: rs)
          end
      end
  end.

(** [cursor.executemany(insert_sql, tuples)]: every tuple is bound first,
    then the rows are inserted. *)
Definition executemany (drv : Driver) (tuples : list (list Pandas.Cell))
           (c : Connection) : outcome unit * Connection :=
  match bind_all drv tuples with
  | inr ora => (Raise (OracleError ora), c)
  | inl rs =>
      match insert_rows c rs with
      | (Return u, c') => (Return u, c')
      | (Raise e, c') =>
          (Raise e, if keeps_rows_before_error drv then c' else c)
      end
  end.

(** [conn.commit()] *)
Definition commit (c : Connection) : Connection :=
  mkConn (option_map (fun t => t ++ uncommitted c) (stock_data c)) [].

(** [DROP TABLE stock_data]; a DDL statement commits first. *)
Definition drop_table (c : Connection) : outcome unit * Connection :=
  match stock_data (commit c) with
  | None => (Raise (OracleError 942), commit c)
  | Some _ => (Return tt, mkConn None [])
  end.

(** The anonymous block of [create_table]: the DROP, with ORA-00942
    (table or view does not exist) let through and anything else
    raised again. *)
Definition drop_table_if_exists (c : Connection) : outcome unit * Connection :=
  match drop_table c with
  | (Raise (OracleError ora), c') =>
      if Z.eqb ora 942 then (Return tt, c') else (Raise (OracleError ora), c')
  | other => other
  end.

(** [CREATE TABLE stock_data (...)]: ORA-00955 when the name is taken. *)
Definition create_stock_data (c : Connection) : outcome unit * Connection :=
  match stock_data (commit c) with
  | Some _ => (Raise (OracleError 955), commit c)
  | None => (Return tt, mkConn (Some []) [])
  end.

End OracleDB.

(* ===================================================================== *)
(** * Logging and the two effect monads *)
(* ===================================================================== *)

Inductive level : Type := INFO | WARNING | ERROR.

(** The messages of the class, with the values that its f-strings
    interpolate. *)
Inductive message : Type :=
| TableCreated
| ErrorCreatingTable (e : exn)
| FetchedData (ticker start_date end_date : string)
| ErrorFetching (ticker : string) (e : exn)
| NoDataToValidate
| MissingValuesDetected
| ExtremeChangesDetected (shown : Pandas.DataFrame)
| ValidationCompleted
| ErrorValidating (e : exn)
| NoDataToProcess
| DataProcessed
| ErrorProcessing (e : exn)
| NoDataToStore
| DataStored
| ErrorStoring (e : exn)
| StartingPipeline (ticker : string).

Definition LogRecord : Type := level * message.

(** What the two monads share: sequencing, [raise], [try ... except] with
    the class of exceptions caught, and the logger. *)
Class PyMonad (m : Type -> Type) : Type := {
  ret : forall {A : Type}, A -> m A;
  bind : forall {A B : Type}, m A -> (A -> m B) -> m B;
  throw : forall {A : Type}, exn -> m A;
  try_except : forall {A : Type}, m A -> (exn -> bool) -> (exn -> m A) -> m A;
  logger : level -> message -> m unit
}.

Notation "x <- c1 ;; c2" := (bind c1 (fun x => c2))
  (at level 61, c1 at next level, right associativity).
Notation "c1 ;; c2" := (bind c1 (fun _ => c2))
  (at level 61, right associativity).

Definition lift_outcome {m : Type -> Type} `{PyMonad m} {A : Type}
           (o : outcome A) : m A :=
  match o with
  | Return a => ret a
  | Raise e => throw e
  end.

(** Code that logs and may raise, and touches nothing else. *)
Definition Logged (A : Type) : Type := outcome A * list LogRecord.

#[export] Instance PyMonad_Logged : PyMonad Logged := {
  ret := fun A a => (Return a, []);
  bind := fun A B c k =>
    match c with
    | (Return a, l) => let (o, l') := k a in (o, l ++ l')
    | (Raise e, l) => (Raise e, l)
    end;
  throw := fun A e => (Raise e, []);
  try_except := fun A c catches handler =>
    match c with
    | (Raise e, l) =>
        if catches e then let (o, l') := handler e in (o, l ++ l')
        else (Raise e, l)
    | done => done
    end;
  logger := fun lv msg => (Return tt, [(lv, msg)])
}.

(** Code that also uses the connection [self.conn]. *)
Definition Py (A : Type) : Type :=
  OracleDB.Connection -> outcome A * OracleDB.Connection * list LogRecord.

#[export] Instance PyMonad_Py : PyMonad Py := {
  ret := fun A a c => (Return a, c, []);
  bind := fun A B f k c =>
    match f c with
    | (Return a, c', l) => let '(o, c'', l') := k a c' in (o, c'', l ++ l')
    | (Raise e, c', l) => (Raise e, c', l)
    end;
  throw := fun A e c => (Raise e, c, []);
  try_except := fun A f catches handler c =>
    match f c with
    | (Raise e, c', l) =>
        if catches e
        then let '(o, c'', l') := handler e c' in (o, c'', l ++ l')
        else (Raise e, c', l)
    | done => done
    end;
  logger := fun lv msg c => (Return tt, c, [(lv, msg)])
}.

Definition pure_stage {A : Type} (s : Logged A) : Py A :=
  fun c => (fst s, c, snd s).

Definition on_connection {A : Type}
           (op : OracleDB.Connection -> outcome A * OracleDB.Connection) : Py A :=
  fun c => (op c, []).

(* ===================================================================== *)
(** * class FinancialDataPipeline *)
(* ===================================================================== *)

Import Pandas.

Definition price_columns : list string :=
  ["Open"; "High"; "Low"; "Close"; "Volume"].

Definition processed_columns : list string :=
  ["Date"; "Ticker"; "Open"; "High"; "Low"; "Close"; "Volume"].

Definition canonical_names : list (string * string) :=
  [("Date", "stock_date"); ("Ticker", "ticker"); ("Open", "open");
   ("High", "high"); ("Low", "low"); ("Close", "close"); ("Volume", "volume")].

(** The threshold of the outlier filter, the literal [0.5]. *)
Definition threshold : Q := 1 # 2.

Section FinancialDataPipeline.

(** [yf.Ticker(ticker).history(start=..., end=...)]: the provider. *)
Variable history : string -> string -> string -> outcome IndexedFrame.

(** The database driver behind [self.conn]. *)
Variable driver : OracleDB.Driver.

(** [create_table], lines 26-56. *)
Definition create_table : Py unit :=
  try_except
    (on_connection OracleDB.drop_table_if_exists ;;
     on_connection OracleDB.create_stock_data ;;
     on_connection (fun c => (Return tt, OracleDB.commit c)) ;;
     logger INFO TableCreated)
    is_oracledb_Error
    (fun e => logger ERROR (ErrorCreatingTable e) ;; throw e).

(** The [try] block of [fetch_stock_data], lines 61-66. *)
Definition fetch_body (ticker start_date end_date : string)
  : Logged (option DataFrame) :=
  data <- lift_outcome (history ticker start_date end_date) ;;
  data <- lift_outcome (reset_index data) ;;
  let data := setitem_scalar "Ticker" (Str ticker) data in
  logger INFO (FetchedData ticker start_date end_date) ;;
  ret (Some data).

(** [fetch_stock_data], lines 58-69. *)
Definition fetch_stock_data (ticker start_date end_date : string)
  : Logged (option DataFrame) :=
  try_except (fetch_body ticker start_date end_date)
             is_Exception
             (fun e => logger ERROR (ErrorFetching ticker e) ;; ret None).

(** Lines 77-79 of [validate_data]: the completeness rule. *)
Definition drop_incomplete (data : DataFrame) : Logged DataFrame :=
  prices <- lift_outcome (select price_columns data) ;;
  if isnull_any_any prices
  then logger WARNING MissingValuesDetected ;; ret (dropna data)
  else ret data.

(** [abs(data['PriceChange']) > 0.5] and [abs(data['PriceChange']) <= 0.5] *)
Definition exceeds_mask (data : DataFrame) : outcome (list bool) :=
  obind (getitem "PriceChange" data)
        (fun s => obind (series_abs s) (fun a => series_gt a threshold)).

Definition within_mask (data : DataFrame) : outcome (list bool) :=
  obind (getitem "PriceChange" data)
        (fun s => obind (series_abs s) (fun a => series_le a threshold)).

(** Lines 81-85 of [validate_data]: the outlier filter. *)
Definition drop_extreme (data : DataFrame) : Logged DataFrame :=
  close <- lift_outcome (getitem "Close" data) ;;
  change <- lift_outcome (pct_change close) ;;
  data <- lift_outcome (setitem "PriceChange" change data) ;;
  exceeds <- lift_outcome (exceeds_mask data) ;;
  let extreme_changes := loc exceeds data in
  if negb (empty extreme_changes)
  then
    shown <- lift_outcome (select ["Date"; "Close"; "PriceChange"] extreme_changes) ;;
    logger WARNING (ExtremeChangesDetected shown) ;;
    within <- lift_outcome (within_mask data) ;;
    ret (loc within data)
  else ret data.

(** The [try] block of [validate_data], lines 77-88. *)
Definition validate_body (data : DataFrame) : Logged (option DataFrame) :=
  data <- drop_incomplete data ;;
  data <- drop_extreme data ;;
  logger INFO ValidationCompleted ;;
  ret (Some data).

(** [validate_data], lines 71-91. *)
Definition validate_data (data : option DataFrame) : Logged (option DataFrame) :=
  match data with
  | None => logger WARNING NoDataToValidate ;; ret None
  | Some data =>
      if empty data
      then logger WARNING NoDataToValidate ;; ret None
      else try_except (validate_body data)
                      is_Exception
                      (fun e => logger ERROR (ErrorValidating e) ;; ret None)
  end.

(** The [try] block of [process_data], lines 99-106. *)
Definition process_body (data : DataFrame) : Logged (option DataFrame) :=
  processed_data <- lift_outcome (select processed_columns data) ;;
  let processed_data := rename canonical_names processed_data in
  dates <- lift_outcome (getitem "stock_date" processed_data) ;;
  formatted <- lift_outcome (dt_strftime_Ymd dates) ;;
  processed_data <- lift_outcome (setitem "stock_date" formatted processed_data) ;;
  logger INFO DataProcessed ;;
  ret (Some processed_data).

(** [process_data], lines 93-109. *)
Definition process_data (data : option DataFrame) : Logged (option DataFrame) :=
  match data with
  | None => logger WARNING NoDataToProcess ;; ret None
  | Some data =>
      if empty data
      then logger WARNING NoDataToProcess ;; ret None
      else try_except (process_body data)
                      is_Exception
                      (fun e => logger ERROR (ErrorProcessing e) ;; ret None)
  end.

(** The [try] block of [store_data], lines 117-125. *)
Definition store_body (processed_data : DataFrame) : Py unit :=
  let data_tuples := to_numpy processed_data in
  on_connection (OracleDB.executemany driver data_tuples) ;;
  on_connection (fun c => (Return tt, OracleDB.commit c)) ;;
  logger INFO DataStored.

(** [store_data], lines 111-128: a database error is logged and raised
    again. *)
Definition store_data (processed_data : option DataFrame) : Py unit :=
  match processed_data with
  | None => logger WARNING NoDataToStore
  | Some processed_data =>
      if empty processed_data
      then logger WARNING NoDataToStore
      else try_except (store_body processed_data)
                      is_oracledb_Error
                      (fun e => logger ERROR (ErrorStoring e) ;; throw e)
  end.

(** One iteration of the loop of [run_pipeline], lines 133-137. *)
Definition run_ticker (ticker start_date end_date : string) : Py unit :=
  logger INFO (StartingPipeline ticker) ;;
  raw_data <- pure_stage (fetch_stock_data ticker start_date end_date) ;;
  validated_data <- pure_stage (validate_data raw_data) ;;
  processed_data <- pure_stage (process_data validated_data) ;;
  store_data processed_data.

(** [run_pipeline], lines 130-137.  The method has no [return]
    statement: the value it hands to its caller is Python's [None],
    here [tt]. *)
Fixpoint run_pipeline (tickers : list string) (start_date end_date : string)
  : Py unit :=
  match tickers with
  | [] => ret tt
  | ticker :: rest =>
      run_ticker ticker start_date end_date ;;
      run_pipeline rest start_date end_date
  end.

End FinancialDataPipeline.

(* ===================================================================== *)
(** * The life of a pipeline object: __init__, close_connection, main *)
(* ===================================================================== *)

(** The log of a whole session: the records of the pipeline's methods and
    those of the constructor and of [close_connection]. *)
Inductive session_message : Type :=
| ConnectedToDatabase
| ErrorConnecting (e : exn)
| ConnectionClosed
| ErrorClosing (e : exn)
| FromPipeline (m : message).

Definition SessionRecord : Type := level * session_message.

Definition from_pipeline (l : list LogRecord) : list SessionRecord :=
  map (fun r => (fst r, FromPipeline (snd r))) l.

(** [__init__], lines 13-24.  [connect] is what [oracledb.connect] gives
    for the credentials: a connection or an exception.  The method
    returns the object, here its connection [self.conn]; an
    [oracledb.Error] of the connection or of [create_table] is logged and
    raised again. *)
Definition init (connect : outcome OracleDB.Connection)
  : outcome OracleDB.Connection * list SessionRecord :=
  match connect with
  | Raise e =>
      if is_oracledb_Error e
      then (Raise e, [(ERROR, ErrorConnecting e)])
      else (Raise e, [])
  | Return conn =>
      match create_table conn with
      | (Return _, c, l) =>
          (Return c, (INFO, ConnectedToDatabase) :: from_pipeline l)
      | (Raise e, _, l) =>
          if is_oracledb_Error e
          then (Raise e,
                (INFO, ConnectedToDatabase) :: from_pipeline l
                ++ [(ERROR, ErrorConnecting e)])
          else (Raise e, (INFO, ConnectedToDatabase) :: from_pipeline l)
      end
  end.

(** [close_connection], lines 139-145.  [close] is what [self.conn.close()]
    does: an [oracledb.Error] is logged and not raised. *)
Definition close_connection (close : OracleDB.Connection -> outcome unit)
           (c : OracleDB.Connection) : outcome unit * list SessionRecord :=
  match close c with
  | Return _ => (Return tt, [(INFO, ConnectionClosed)])
  | Raise e =>
      if is_oracledb_Error e
      then (Return tt, [(ERROR, ErrorClosing e)])
      else (Raise e, [])
  end.

(** The tickers of [main], line 154. *)
Definition main_tickers : list string := ["AAPL"; "MSFT"; "GOOGL"].

(** [main], lines 147-160: the constructor, the run, the close, with no
    [try] around them.  [end_date] and [start_date] are the two strings
    that lines 155-156 format from the clock (today and thirty days
    before). *)
Definition main (connect : outcome OracleDB.Connection)
           (close : OracleDB.Connection -> outcome unit)
           (history : string -> string -> string -> outcome IndexedFrame)
           (driver : OracleDB.Driver) (start_date end_date : string)
  : outcome unit * list SessionRecord :=
  match init connect with
  | (Raise e, l) => (Raise e, l)
  | (Return pipeline, l) =>
      match run_pipeline history driver main_tickers start_date end_date
                         pipeline with
      | (Raise e, _, l') => (Raise e, l ++ from_pipeline l')
      | (Return _, c, l') =>
          let (o, l'') := close_connection close c in
          (o, l ++ from_pipeline l' ++ l'')
      end
  end.

(* ===================================================================== *)
(** * Sample data *)
(* ===================================================================== *)

Module Sample.

Definition number (q : Q) : Cell := Float (Float64.Fin q).

(** A complete daily bar whose five price fields are given. *)
Definition bar (o h l c v : Q) : Row :=
  [("Open", number o); ("High", number h); ("Low", number l);
   ("Close", number c); ("Volume", number v)].

(** A bar that opened, traded and closed at one price. *)
Definition flat (c : Q) : Row := bar c c c c 1000.

Definition january (d : nat) : Cell := Timestamp 2024 1 (Z.of_nat d).

(** What the provider returns for a run of closes on consecutive days
    of January 2024: the days are the index, named Date. *)
Definition daily (closes : list Q) : IndexedFrame :=
  mkIndexed "Date" price_columns
            (combine (map january (seq 2 (List.length closes)))
                     (map flat closes)).

(** The same series as [fetch_stock_data] hands it on. *)
Definition fetched (ticker : string) (closes : list Q) : DataFrame :=
  mkFrame ("Date" :: price_columns ++ ["Ticker"])
          (map (fun dr => ("Date", fst dr) :: snd dr ++ [("Ticker", Str ticker)])
               (combine (map january (seq 2 (List.length closes)))
                        (map flat closes))).

(** A provider that knows no ticker named UNKNOWN and answers every
    other one with two quiet days. *)
Definition provider (ticker start_date end_date : string)
  : outcome IndexedFrame :=
  if String.eqb ticker "UNKNOWN"
  then Raise (ProviderError "no data found, symbol may be delisted")
  else Return (daily [100; 110]).

(** A driver that binds strings to the two VARCHAR2 columns and finite
    floats to the five NUMBER columns and refuses anything else
    (ORA-01722, invalid number). *)
Definition bind_text_and_numbers (t : list Cell) : OracleDB.DbRow + Z :=
  match t with
  | [Str d; Str k; Float (Float64.Fin o); Float (Float64.Fin h);
     Float (Float64.Fin l); Float (Float64.Fin c); Float (Float64.Fin v)] =>
      inl (OracleDB.mkRow (Some d) (Some k) (Some o) (Some h) (Some l)
                          (Some c) (Some v))
  | _ => inr 1722%Z
  end.

Definition driver (keeps : bool) : OracleDB.Driver :=
  OracleDB.mkDriver bind_text_and_numbers keeps.

Definition fresh : OracleDB.Connection := OracleDB.mkConn (Some []) [].

Definition closes_of (df : DataFrame) : list Cell :=
  map (fun r => at_ r "Close") (rows df).

(** Two days, the close doubling on the second. *)
Definition jump : DataFrame := fetched "AAPL" [100; 200].

(** Four days: 100, 100, 151 (+51%), 200 (+32.5%). *)
Definition gap : DataFrame := fetched "AAPL" [100; 100; 151; 200].

(** Two days as the provider gives them, the first without an Open. *)
Definition missing_open : DataFrame :=
  mkFrame ("Date" :: price_columns ++ ["Ticker"])
          [ [("Date", january 2); ("Open", Float Float64.NaN);
             ("High", number 101); ("Low", number 99); ("Close", number 100);
             ("Volume", number 1000); ("Ticker", Str "AAPL")];
            ("Date", january 3) :: flat 101 ++ [("Ticker", Str "AAPL")] ].

(** Two days with the Dividends column of the provider: the first day
    has no Open, the second has all five price fields and no
    Dividends value. *)
Definition with_dividends : DataFrame :=
  mkFrame ["Date"; "Open"; "High"; "Low"; "Close"; "Volume"; "Dividends"; "Ticker"]
          [ [("Date", january 2); ("Open", Float Float64.NaN);
             ("High", number 101); ("Low", number 99); ("Close", number 100);
             ("Volume", number 1000); ("Dividends", number 0);
             ("Ticker", Str "AAPL")];
            [("Date", january 3); ("Open", number 100);
             ("High", number 102); ("Low", number 99); ("Close", number 101);
             ("Volume", number 1200); ("Dividends", Float Float64.NaN);
             ("Ticker", Str "AAPL")] ].

(** Two days whose dates are text, the second one no day of the
    calendar. *)
Definition text_dates : DataFrame :=
  mkFrame ("Date" :: price_columns ++ ["Ticker"])
          [ ("Date", Str "2024-01-02") :: flat 100 ++ [("Ticker", Str "AAPL")];
            ("Date", Str "2024-02-30") :: flat 101 ++ [("Ticker", Str "AAPL")] ].

(** Two days of a datetime64 Date column, the second date missing. *)
Definition missing_date : DataFrame :=
  mkFrame ("Date" :: price_columns ++ ["Ticker"])
          [ ("Date", january 2) :: flat 100 ++ [("Ticker", Str "AAPL")];
            ("Date", NaT) :: flat 101 ++ [("Ticker", Str "AAPL")] ].

(** A frame that came without a Close column. *)
Definition no_close : DataFrame :=
  mkFrame ["Date"; "Open"; "High"; "Low"; "Volume"; "Ticker"]
          [ [("Date", january 2); ("Open", number 100); ("High", number 101);
             ("Low", number 99); ("Volume", number 1000);
             ("Ticker", Str "AAPL")] ].

(** Two bars that the provider dated the same day. *)
Definition repeated_day : DataFrame :=
  mkFrame ("Date" :: price_columns ++ ["Ticker"])
          [ ("Date", january 2) :: flat 100 ++ [("Ticker", Str "AAPL")];
            ("Date", january 2) :: flat 101 ++ [("Ticker", Str "AAPL")] ].

Definition stored_row : OracleDB.DbRow :=
  OracleDB.mkRow (Some "2024-01-02") (Some "AAPL") (Some 100) (Some 101)
                 (Some 99) (Some 100) (Some 1000).

(** A database in which an earlier run committed one row. *)
Definition earlier_run : OracleDB.Connection :=
  OracleDB.mkConn (Some [stored_row]) [].

End Sample.

(* ===================================================================== *)
(** * The vocabulary of the properties *)
(* ===================================================================== *)

(** The Close column as floats, when it is numeric. *)
Definition close_prices (df : DataFrame) : outcome (list Float64.t) :=
  traverse to_float (map (fun r => at_ r "Close") (rows df)).

Definition exceeds (x : Float64.t) : bool :=
  Float64.gt (Float64.abs x) threshold.

(** The close-to-close changes between the neighbours of a series. *)
Definition neighbour_changes (closes : list Float64.t) : list Float64.t :=
  match closes with
  | [] => []
  | x :: xs => changes x xs
  end.

(** No two neighbouring rows of the frame differ in close by more than
    the threshold. *)
Definition no_extreme_neighbours (df : DataFrame) : bool :=
  match close_prices df with
  | Return closes => forallb (fun x => negb (exceeds x)) (neighbour_changes closes)
  | Raise _ => false
  end.

(** The rows of a frame that have no null among the five price fields. *)
Definition rows_with_prices (df : DataFrame) : list Row :=
  filter (fun r => negb (row_has_null price_columns r)) (rows df).

(** The rows of a frame that have no null in any of its columns. *)
Definition rows_without_null (df : DataFrame) : list Row :=
  filter (fun r => negb (row_has_null (columns df) r)) (rows df).

(** A date cell that is a calendar date. *)
Definition is_calendar_date (c : Cell) : bool :=
  match c with
  | Timestamp _ _ _ => true
  | _ => false
  end.




Definition has_malformed_date (df : DataFrame) : bool :=
  existsb (fun r => negb (is_calendar_date (at_ r "Date"))) (rows df).

Definition date_column (df : DataFrame) : list Cell :=
  map (fun r => at_ r "Date") (rows df).

(** The canonical record of one validated row: the date formatted, the
    six other fields under their canonical names. *)
Definition normalized_row (r : Row) : Row :=
  [("stock_date", strftime_Ymd (at_ r "Date")); ("ticker", at_ r "Ticker");
   ("open", at_ r "Open"); ("high", at_ r "High"); ("low", at_ r "Low");
   ("close", at_ r "Close"); ("volume", at_ r "Volume")].

(** The order-preserving projection of a series to canonical records. *)
Definition normalized (df : DataFrame) : DataFrame :=
  mkFrame (map snd canonical_names) (map normalized_row (rows df)).

(** The rows of a frame after [df[c] = series]. *)
Definition assigned (c : string) (rs : list Row) (vs : list Cell) : list Row :=
  map (fun rv => upd c (snd rv) (fst rv)) (combine rs vs).

(** The primary key holds in a list of rows: no two of them agree on
    (stock_date, ticker). *)
Fixpoint primary_key_holds (rs : list OracleDB.DbRow) : bool :=
  match rs with
  | [] => true
  | r :: rs' => negb (existsb (OracleDB.same_key r) rs') && primary_key_holds rs'
  end.

Definition rows_with_key (r : OracleDB.DbRow) (rs : list OracleDB.DbRow)
  : list OracleDB.DbRow :=
  filter (OracleDB.same_key r) rs.

Definition connection_after {A : Type}
           (r : outcome A * OracleDB.Connection * list LogRecord)
  : OracleDB.Connection :=
  snd (fst r).

Definition outcome_of {A : Type}
           (r : outcome A * OracleDB.Connection * list LogRecord) : outcome A :=
  fst (fst r).

Definition log_of {A : Type}
           (r : outcome A * OracleDB.Connection * list LogRecord)
  : list LogRecord :=
  snd r.

(** A caller that writes one batch after the other on the same
    connection and goes on after a failed write. *)
Definition after_writes (driver : OracleDB.Driver)
           (batches : list (option DataFrame)) (c : OracleDB.Connection)
  : OracleDB.Connection :=
  fold_left (fun c b => connection_after (store_data driver b c)) batches c.

(** The tickers whose iteration began, read off the log. *)
Definition started (l : list LogRecord) : list string :=
  flat_map (fun r => match snd r with
                     | StartingPipeline t => [t]
                     | _ => []
                     end) l.

(** A row that the table's NOT NULL and VARCHAR2(10) constraints let in. *)
Definition acceptable (r : OracleDB.DbRow) : bool :=
  negb (OracleDB.varchar_null (OracleDB.stock_date r))
  && negb (OracleDB.varchar_null (OracleDB.ticker r))
  && OracleDB.varchar_fits 10 (OracleDB.stock_date r)
  && OracleDB.varchar_fits 10 (OracleDB.ticker r).

(** The frame that the three stages before the write make of a ticker. *)
Definition processed_of
           (history : string -> string -> string -> outcome IndexedFrame)
           (start_date end_date ticker : string) : outcome (option DataFrame) :=
  obind (fst (fetch_stock_data history ticker start_date end_date))
        (fun raw => obind (fst (validate_data raw))
                          (fun validated => fst (process_data validated))).

(** The number of records that [store_data] is handed for a ticker. *)
Definition records_of
           (history : string -> string -> string -> outcome IndexedFrame)
           (start_date end_date ticker : string) : nat :=
  match processed_of history start_date end_date ticker with
  | Return (Some d) => if empty d then 0 else List.length (rows d)
  | _ => 0
  end.

(** The seven values of a record, in the order of the INSERT's
    placeholders. *)
Definition record_tuple (r : Row) : list Cell :=
  [strftime_Ymd (at_ r "Date"); at_ r "Ticker"; at_ r "Open"; at_ r "High";
   at_ r "Low"; at_ r "Close"; at_ r "Volume"].


(** The run summary in the words of the specification: how many tickers
    ended Done, how many Failed, and how many records were stored. *)
Record RunSummary : Type := mkSummary {
  done : nat;
  failed : nat;
  stored : nat
}.

(** The records a run added to the committed table. *)
Definition records_added (before after : OracleDB.Connection) : nat :=
  List.length (OracleDB.committed_rows after)
  - List.length (OracleDB.committed_rows before).

(* ===================================================================== *)
(** * Sequencing in [Logged] *)
(* ===================================================================== *)

Lemma Logged_bind_Return {A B : Type} (c : Logged A) (k : A -> Logged B)
      (b : B) (l : list LogRecord) :
  bind c k = (Return b, l) ->
  exists a l1 l2, c = (Return a, l1) /\ k a = (Return b, l2) /\ l = l1 ++ l2.
Proof.
  destruct c as [[a | e] l1]; cbn.
  - destruct (k a) as [o l2] eqn:Hk. intros H. inversion H. subst.
    exists a, l1, l2. auto.
  - discriminate.
Qed.

Lemma lift_outcome_Return {A : Type} (o : outcome A) (a : A) (l : list LogRecord) :
  lift_outcome (m := Logged) o = (Return a, l) -> o = Return a /\ l = [].
Proof.
  destruct o; cbn; intros H; inversion H; auto.
Qed.

Lemma try_except_all_returns {A : Type} (body : Logged A)
      (handler : exn -> Logged A) :
  (forall e, exists a l, handler e = (Return a, l)) ->
  exists a l, try_except body is_Exception handler = (Return a, l).
Proof.
  intros Hh. destruct body as [[a | e] l]; cbn.
  - eauto.
  - destruct (Hh e) as (a & l' & ->). eauto.
Qed.

(* ===================================================================== *)
(** * validate_data: exceptions *)
(* ===================================================================== *)

(** C10.  [validate_data] never raises to its caller: on every input it
    returns a value.  An exception that arises inside its validation logic
    (the [try] block) is caught and logged and the result is [None], the
    same result as on a null input and on an empty frame, so the whole
    series is discarded. *)
Theorem validate_data_never_raises (data : option DataFrame) :
  (exists r l, validate_data data = (Return r, l)) /\
  (forall d e l,
      data = Some d -> empty d = false -> validate_body d = (Raise e, l) ->
      validate_data data = (Return None, l ++ [(ERROR, ErrorValidating e)])) /\
  (data = None ->
   validate_data data = (Return None, [(WARNING, NoDataToValidate)])) /\
  (forall d,
      data = Some d -> empty d = true ->
      validate_data data = (Return None, [(WARNING, NoDataToValidate)])).
Proof.
  repeat split.
  - destruct data as [d |]; unfold validate_data; [| cbn; eauto].
    destruct (empty d); [cbn; eauto |].
    apply try_except_all_returns. intros e. cbn. eauto.
  - intros d e l -> He Hb. unfold validate_data. rewrite He, Hb. reflexivity.
  - intros ->. reflexivity.
  - intros d -> He. unfold validate_data. rewrite He. reflexivity.
Qed.

Lemma validate_data_never_raises_witness :
  validate_data (Some Sample.no_close)
  = (Return None, [(ERROR, ErrorValidating (KeyError "Close"))]).
Proof.
  destruct (validate_data_never_raises (Some Sample.no_close)) as (_ & H & _).
  exact (H Sample.no_close (KeyError "Close") [] eq_refl eq_refl eq_refl).
Defined.

Lemma try_except_Some {A : Type} (body : Logged (option A))
      (handler : exn -> Logged (option A)) (v : A) (l : list LogRecord) :
  (forall e, exists l', handler e = (Return None, l')) ->
  try_except body is_Exception handler = (Return (Some v), l) ->
  body = (Return (Some v), l).
Proof.
  intros Hh. destruct body as [[a | e] l0]; cbn.
  - auto.
  - destruct (Hh e) as (l' & ->). discriminate.
Qed.

(* ===================================================================== *)
(** * Facts about the pandas operations *)
(* ===================================================================== *)

Section PandasFacts.

Lemma existsb_ext_in {A : Type} (f g : A -> bool) (xs : list A) :
  (forall x, In x xs -> f x = g x) -> existsb f xs = existsb g xs.
Proof.
  induction xs as [| x xs IH]; cbn; intros H; [reflexivity |].
  rewrite (H x (or_introl eq_refl)), IH; auto.
Qed.

Lemma at_upd_same (c : string) (v : Cell) (r : Row) : at_ (upd c v r) c = v.
Proof.
  unfold at_. induction r as [| [k x] r IH]; cbn.
  - rewrite String.eqb_refl. reflexivity.
  - destruct (String.eqb k c) eqn:E; cbn; rewrite E; auto.
Qed.

Lemma at_projection (r : Row) (cs : list string) (c : string) :
  In c cs -> at_ (map (fun c => (c, at_ r c)) cs) c = at_ r c.
Proof.
  unfold at_ at 1. induction cs as [| k cs IH]; cbn; [tauto |].
  intros [-> | Hin].
  - rewrite String.eqb_refl. reflexivity.
  - destruct (String.eqb k c) eqn:E; [| auto].
    apply String.eqb_eq in E. subst. reflexivity.
Qed.

Lemma row_has_null_projection (r : Row) (cs : list string) :
  row_has_null cs (map (fun c => (c, at_ r c)) cs) = row_has_null cs r.
Proof.
  unfold row_has_null. apply existsb_ext_in. intros c Hc.
  rewrite at_projection; auto.
Qed.

Lemma isnull_any_any_select (cs : list string) (d p : DataFrame) :
  select cs d = Return p ->
  columns p = cs /\ isnull_any_any p = existsb (row_has_null cs) (rows d).
Proof.
  unfold select. destruct (first_missing cs d); [discriminate |].
  intros H. inversion H. subst. clear H. split; [reflexivity |].
  unfold isnull_any_any. cbn [columns rows].
  induction (rows d) as [| r rs IH]; [reflexivity |].
  cbn [map existsb]. rewrite row_has_null_projection, IH. reflexivity.
Qed.

Lemma has_column_add_label (c : string) (cs : list string) :
  existsb (String.eqb c) (add_label c cs) = true.
Proof.
  unfold add_label. destruct (existsb (String.eqb c) cs) eqn:E; [exact E |].
  rewrite existsb_app. cbn. rewrite String.eqb_refl.
  rewrite orb_true_r. reflexivity.
Qed.

Lemma add_label_not_nil (c : string) (cs : list string) : add_label c cs <> [].
Proof.
  unfold add_label. destruct (existsb (String.eqb c) cs) eqn:E.
  - destruct cs; [discriminate | discriminate].
  - destruct cs; discriminate.
Qed.

Lemma traverse_to_float_map (f : Float64.t -> Float64.t) (xs : list Float64.t) :
  traverse to_float (map (fun x => Float (f x)) xs) = Return (map f xs).
Proof.
  induction xs as [| x xs IH]; cbn; [reflexivity |].
  rewrite IH. reflexivity.
Qed.

Lemma traverse_to_float_Float (xs : list Float64.t) :
  traverse to_float (map Float xs) = Return xs.
Proof.
  induction xs as [| x xs IH]; cbn; [reflexivity |].
  rewrite IH. reflexivity.
Qed.

Lemma traverse_to_float_length (s : list Cell) (xs : list Float64.t) :
  traverse to_float s = Return xs -> List.length xs = List.length s.
Proof.
  revert xs. induction s as [| c s IH]; cbn; intros xs H.
  - inversion H. reflexivity.
  - destruct c; cbn in H; try discriminate.
    destruct (traverse to_float s) as [ys |]; cbn in H; [| discriminate].
    inversion H. cbn. rewrite (IH ys); reflexivity.
Qed.

Lemma length_changes (x : Float64.t) (xs : list Float64.t) :
  List.length (changes x xs) = List.length xs.
Proof.
  revert x. induction xs as [| y ys IH]; cbn; intros x; [reflexivity |].
  rewrite IH. reflexivity.
Qed.

Lemma length_pct_change_floats (xs : list Float64.t) :
  List.length (pct_change_floats xs) = List.length xs.
Proof.
  destruct xs; cbn; [reflexivity |]. rewrite length_changes. reflexivity.
Qed.

Lemma column_of_assigned (c : string) (rs : list Row) (vs : list Cell) :
  List.length vs = List.length rs ->
  map (fun r => at_ r c) (assigned c rs vs) = vs.
Proof.
  unfold assigned. revert vs.
  induction rs as [| r rs IH]; intros [| v vs]; cbn; try discriminate; auto.
  intros H. rewrite at_upd_same, IH; auto.
Qed.

Lemma setitem_Return (c : string) (vs : list Cell) (d m : DataFrame) :
  setitem c vs d = Return m ->
  List.length vs = List.length (rows d) /\
  columns m = add_label c (columns d) /\
  rows m = assigned c (rows d) vs.
Proof.
  unfold setitem.
  destruct (Nat.eqb (List.length vs) (List.length (rows d))) eqn:E;
    [| discriminate].
  apply Nat.eqb_eq in E. intros H. inversion H. auto.
Qed.

Lemma getitem_assigned (c : string) (vs : list Cell) (d m : DataFrame) :
  setitem c vs d = Return m -> getitem c m = Return vs.
Proof.
  intros H. destruct (setitem_Return _ _ _ _ H) as (Hlen & Hc & Hr).
  unfold getitem, has_column. rewrite Hc, has_column_add_label, Hr.
  rewrite column_of_assigned; auto.
Qed.

(** Rows kept by a mask that was computed from the column just assigned. *)
Lemma kept_by_mask (c : string) (g : Float64.t -> bool)
      (rs : list Row) (xs : list Float64.t) (r : Row) :
  In r (map fst (filter snd (combine (assigned c rs (map Float xs)) (map g xs)))) ->
  In r (assigned c rs (map Float xs)) /\
  exists x, at_ r c = Float x /\ g x = true.
Proof.
  unfold assigned. revert xs.
  induction rs as [| r0 rs IH]; intros [| x xs]; cbn; try tauto.
  destruct (g x) eqn:G; cbn.
  - intros [<- | Hin].
    + split; [auto |]. exists x. rewrite at_upd_same. auto.
    + destruct (IH xs Hin) as [H1 H2]. auto.
  - intros Hin. destruct (IH xs Hin) as [H1 H2]. auto.
Qed.

Lemma none_kept_by_mask (c : string) (g : Float64.t -> bool)
      (rs : list Row) (xs : list Float64.t) (r : Row) :
  map fst (filter snd (combine (assigned c rs (map Float xs)) (map g xs))) = [] ->
  In r (assigned c rs (map Float xs)) ->
  exists x, at_ r c = Float x /\ g x = false.
Proof.
  unfold assigned. revert xs.
  induction rs as [| r0 rs IH]; intros [| x xs]; cbn; try tauto.
  destruct (g x) eqn:G; cbn; [discriminate |].
  intros Hnil [<- | Hin].
  - exists x. rewrite at_upd_same. auto.
  - apply (IH xs); auto.
Qed.

Lemma within_not_exceeds (x : Float64.t) :
  Float64.le (Float64.abs x) threshold = true -> exceeds x = false.
Proof.
  unfold exceeds. destruct x as [| q | s]; cbn; try discriminate.
  unfold Float64.Qltb. intros ->. reflexivity.
Qed.

End PandasFacts.

(* ===================================================================== *)
(** * validate_data: the completeness rule *)
(* ===================================================================== *)

(** Outside a RawSeries the rule is wider than the five price fields:
    [dropna] is called with no subset, so a null in any other column
    removes a row as well.  In [Sample.with_dividends] the second day has
    all five price fields and no Dividends value, and goes with the
    first. *)
Lemma null_outside_the_prices_removes_a_row :
  drop_incomplete Sample.with_dividends
  = (Return (dropna Sample.with_dividends), [(WARNING, MissingValuesDetected)]) /\
  rows (dropna Sample.with_dividends) = [] /\
  List.length (rows_with_prices Sample.with_dividends) = 1%nat.
Proof.
  repeat split; vm_compute; reflexivity.
Qed.

(* ===================================================================== *)
(** * Float64: rounding *)
(* ===================================================================== *)

(** 110 / 100 - 1 is not one tenth in float64 but the float
    0.10000000000000009. *)
Lemma change_of_a_tenth_is_rounded :
  Float64.sub (Float64.div (Float64.Fin 110) (Float64.Fin 100)) (Float64.Fin 1)
  = Float64.Fin (225179981368525 # 2251799813685248).
Proof.
  vm_compute. reflexivity.
Qed.

(** The floats [a] and [b] nearest to 0.3 and 0.45: [b] is above one and
    a half times [a], yet the quotient rounds to 1.5 and the change to
    one half, which the outlier filter does not hold extreme: both days
    pass [validate_data]. *)
Lemma change_that_rounds_to_the_threshold :
  let a := (5404319552844595 # 18014398509481984)%Q in
  let b := (8106479329266893 # 18014398509481984)%Q in
  ((3 # 2) * a < b)%Q /\
  Float64.sub (Float64.div (Float64.Fin b) (Float64.Fin a)) (Float64.Fin 1)
  = Float64.Fin (1 # 2) /\
  exists v l,
    validate_data (Some (Sample.fetched "AAPL" [a; b])) = (Return (Some v), l) /\
    List.length (rows v) = 2%nat.
Proof.
  split; [vm_compute; reflexivity |]. split; [vm_compute; reflexivity |].
  eexists. eexists. split; vm_compute; reflexivity.
Qed.

(** A quotient beyond the largest float is an infinity. *)
Lemma quotient_overflows :
  Float64.div (Float64.Fin (2 ^ 600)) (Float64.Fin (1 / 2 ^ 600))
  = Float64.Inf false.
Proof.
  vm_compute. reflexivity.
Qed.

(* ===================================================================== *)
(** * validate_data: the outlier filter *)
(* ===================================================================== *)

Lemma exceeds_mask_assigned (d m : DataFrame) (xs : list Float64.t) :
  setitem "PriceChange" (map Float xs) d = Return m ->
  exceeds_mask m = Return (map exceeds xs).
Proof.
  intros H. unfold exceeds_mask. rewrite (getitem_assigned _ _ _ _ H).
  cbn [obind]. unfold series_abs. rewrite traverse_to_float_Float.
  cbn [obind]. unfold series_gt. rewrite traverse_to_float_map.
  cbn [obind]. rewrite map_map. reflexivity.
Qed.

Lemma within_mask_assigned (d m : DataFrame) (xs : list Float64.t) :
  setitem "PriceChange" (map Float xs) d = Return m ->
  within_mask m
  = Return (map (fun x => Float64.le (Float64.abs x) threshold) xs).
Proof.
  intros H. unfold within_mask. rewrite (getitem_assigned _ _ _ _ H).
  cbn [obind]. unfold series_abs. rewrite traverse_to_float_Float.
  cbn [obind]. unfold series_le. rewrite traverse_to_float_map.
  cbn [obind]. rewrite map_map. reflexivity.
Qed.

(** What the outlier filter returns, when it returns: rows of the frame
    it measured, each with a change that does not exceed the threshold. *)
Lemma drop_extreme_Return (d v : DataFrame) (l : list LogRecord) :
  drop_extreme d = (Return v, l) ->
  exists closes measured,
    close_prices d = Return closes /\
    setitem "PriceChange" (map Float (pct_change_floats closes)) d
    = Return measured /\
    incl (rows v) (rows measured) /\
    forall r, In r (rows v) ->
              exists x, at_ r "PriceChange" = Float x /\ exceeds x = false.
Proof.
  unfold drop_extreme. intros H.
  apply Logged_bind_Return in H. destruct H as (close & ? & ? & Hc & H & _).
  apply lift_outcome_Return in Hc. destruct Hc as [Hc _].
  apply Logged_bind_Return in H. destruct H as (change & ? & ? & Hp & H & _).
  apply lift_outcome_Return in Hp. destruct Hp as [Hp _].
  apply Logged_bind_Return in H. destruct H as (m & ? & ? & Hm & H & _).
  apply lift_outcome_Return in Hm. destruct Hm as [Hm _].
  apply Logged_bind_Return in H. destruct H as (mask & ? & ? & Hx & H & _).
  apply lift_outcome_Return in Hx. destruct Hx as [Hx _].
  unfold getitem in Hc. destruct (has_column "Close" d); [| discriminate].
  inversion Hc. subst close. clear Hc.
  unfold pct_change in Hp.
  destruct (traverse to_float (map (fun r => at_ r "Close") (rows d)))
    as [closes |] eqn:Hcl; [| discriminate].
  cbn [obind] in Hp. inversion Hp. subst change. clear Hp.
  rewrite (exceeds_mask_assigned _ _ _ Hm) in Hx. inversion Hx. subst mask.
  clear Hx.
  destruct (setitem_Return _ _ _ _ Hm) as (_ & Hcols & Hrows).
  exists closes, m. repeat split; auto.
  - destruct (negb (empty (loc (map exceeds (pct_change_floats closes)) m))).
    + apply Logged_bind_Return in H. destruct H as (shown & ? & ? & _ & H & _).
      apply Logged_bind_Return in H. destruct H as (? & ? & ? & _ & H & _).
      apply Logged_bind_Return in H. destruct H as (within & ? & ? & Hw & H & _).
      apply lift_outcome_Return in Hw. destruct Hw as [Hw _].
      rewrite (within_mask_assigned _ _ _ Hm) in Hw. inversion Hw. subst within.
      cbn in H. inversion H. subst v. cbn [rows loc]. rewrite Hrows.
      intros r Hr. apply kept_by_mask in Hr. tauto.
    + cbn in H. inversion H. apply incl_refl.
  - destruct (negb (empty (loc (map exceeds (pct_change_floats closes)) m)))
      eqn:He.
    + apply Logged_bind_Return in H. destruct H as (shown & ? & ? & _ & H & _).
      apply Logged_bind_Return in H. destruct H as (? & ? & ? & _ & H & _).
      apply Logged_bind_Return in H. destruct H as (within & ? & ? & Hw & H & _).
      apply lift_outcome_Return in Hw. destruct Hw as [Hw _].
      rewrite (within_mask_assigned _ _ _ Hm) in Hw. inversion Hw. subst within.
      cbn in H. inversion H. subst v. cbn [rows loc]. rewrite Hrows.
      intros r Hr. apply kept_by_mask in Hr.
      destruct Hr as (_ & y & Hy & Hle). exists y. split; [exact Hy |].
      apply within_not_exceeds. exact Hle.
    + cbn in H. inversion H. subst v. intros r Hr.
      apply negb_false_iff in He. unfold empty, loc in He. cbn [columns rows] in He.
      rewrite Hcols in He.
      destruct (add_label "PriceChange" (columns d)) eqn:Ha;
        [exact (False_ind _ (add_label_not_nil _ _ Ha)) |].
      rewrite Hrows in He, Hr.
      destruct (map fst
                  (filter snd
                     (combine
                        (assigned "PriceChange" (rows d)
                                  (map Float (pct_change_floats closes)))
                        (map exceeds (pct_change_floats closes))))) eqn:Hk;
        [| discriminate].
      exact (none_kept_by_mask _ _ _ _ _ Hk Hr).
Qed.

(** C3, as the code has it.  Every row that [validate_data] returns is a
    row of the series left by the completeness rule, and its close differs
    by no more than the threshold from the close of the row before it in
    that series (the change is the one stored in its PriceChange cell);
    the comparison is not made again between the rows that remain. *)
Theorem validated_rows_within_threshold_of_their_input_neighbour
        (raw v : DataFrame) (l : list LogRecord) :
  validate_data (Some raw) = (Return (Some v), l) ->
  exists complete lc closes measured,
    drop_incomplete raw = (Return complete, lc) /\
    close_prices complete = Return closes /\
    setitem "PriceChange" (map Float (pct_change_floats closes)) complete
    = Return measured /\
    incl (rows v) (rows measured) /\
    forall r, In r (rows v) ->
              exists x, at_ r "PriceChange" = Float x /\ exceeds x = false.
Proof.
  unfold validate_data. destruct (empty raw); [cbn; discriminate |].
  intros H. apply try_except_Some in H; [| intros e; cbn; eauto].
  unfold validate_body in H.
  apply Logged_bind_Return in H. destruct H as (complete & lc & ? & Hi & H & _).
  apply Logged_bind_Return in H. destruct H as (kept & ? & ? & He & H & _).
  cbn in H. inversion H. subst kept.
  destruct (drop_extreme_Return _ _ _ He) as (closes & measured & Hd).
  exists complete, lc, closes, measured. tauto.
Qed.

Lemma validated_rows_within_threshold_of_their_input_neighbour_witness :
  exists v l,
    validate_data (Some Sample.gap) = (Return (Some v), l) /\
    forall r, In r (rows v) ->
              exists x, at_ r "PriceChange" = Float x /\ exceeds x = false.
Proof.
  eexists. eexists. split; [vm_compute; reflexivity |].
  edestruct (validated_rows_within_threshold_of_their_input_neighbour
               Sample.gap) as (? & ? & ? & ? & _ & _ & _ & _ & H);
    [vm_compute; reflexivity | exact H].
Defined.

(** C3, as the specification has it, fails: of the four days of
    [Sample.gap] (closes 100, 100, 151, 200) the second and the fourth
    remain, neighbours now, and the close doubles between them. *)
Lemma validated_neighbours_exceed_threshold :
  exists v l,
    validate_data (Some Sample.gap) = (Return (Some v), l) /\
    Sample.closes_of v = [Sample.number 100; Sample.number 200] /\
    no_extreme_neighbours v = false.
Proof.
  eexists. eexists. split; [vm_compute; reflexivity |].
  split; vm_compute; reflexivity.
Qed.

(** C2, on the code.  [Sample.jump] has two days, the close doubling on
    the second.  The filter classifies the second day alone as extreme (it
    is the only row of the warning), and the frame it returns has no row:
    the first day, whose change is NaN, fails [abs(PriceChange) <= 0.5]
    and is dropped with it. *)
Theorem first_row_dropped_with_the_extreme_row :
  validate_data (Some Sample.jump)
  = (Return (Some (mkFrame ("Date" :: price_columns ++ ["Ticker"; "PriceChange"])
                           [])),
     [(WARNING,
       ExtremeChangesDetected
         (mkFrame ["Date"; "Close"; "PriceChange"]
                  [[("Date", Sample.january 3); ("Close", Sample.number 200);
                    ("PriceChange", Sample.number 1)]]));
      (INFO, ValidationCompleted)]).
Proof.
  vm_compute. reflexivity.
Qed.

(* ===================================================================== *)
(** * process_data *)
(* ===================================================================== *)

Lemma combine_map_upd (c : string) (f : Row -> Row) (g : Row -> Cell)
      (rs : list Row) :
  map (fun rv => upd c (snd rv) (fst rv)) (combine (map f rs) (map g rs))
  = map (fun r => upd c (g r) (f r)) rs.
Proof.
  induction rs as [| r rs IH]; cbn [map combine fst snd]; [reflexivity |].
  rewrite IH. reflexivity.
Qed.

(** The [try] block of [process_data] is the projection [normalized],
    unless a column is missing or the Date column is not datetime64. *)
Lemma process_body_normalizes (d : DataFrame) :
  process_body d
  = match first_missing processed_columns d with
    | Some c => (Raise (KeyError c), [])
    | None =>
        if forallb is_datetimelike (date_column d)
        then (Return (Some (normalized d)), [(INFO, DataProcessed)])
        else (Raise AttributeError, [])
    end.
Proof.
  unfold process_body, select.
  destruct (first_missing processed_columns d); [reflexivity |].
  cbn [lift_outcome bind ret PyMonad_Logged].
  unfold rename at 1. cbn [columns rows].
  unfold getitem, has_column. cbn [columns rows].
  change (existsb (String.eqb "stock_date")
                  (map (new_label canonical_names) processed_columns)) with true.
  cbn iota. rewrite !map_map. cbn [lift_outcome bind ret PyMonad_Logged].
  change (map (fun x : Row =>
                 at_ (map (fun kv => (new_label canonical_names (fst kv), snd kv))
                          (map (fun c => (c, at_ x c)) processed_columns))
                     "stock_date") (rows d))
    with (date_column d).
  unfold dt_strftime_Ymd.
  destruct (forallb is_datetimelike (date_column d)); [| reflexivity].
  cbn [lift_outcome bind ret PyMonad_Logged].
  unfold setitem, rename, date_column. cbn [columns rows].
  rewrite !length_map, Nat.eqb_refl, !map_map.
  rewrite (combine_map_upd "stock_date"
             (fun x => map (fun kv => (new_label canonical_names (fst kv), snd kv))
                           (map (fun c => (c, at_ x c)) processed_columns))
             (fun x => strftime_Ymd (at_ x "Date"))).
  reflexivity.
Qed.

(** C5, as the code has it.  [process_data] raises nothing to its caller.
    When it returns a frame, the frame is the projection [normalized] of
    the input: one record per input row, in order, so no row is dropped,
    and the Date column held datetime64 values only, a missing one (NaT)
    giving a record whose stock_date is NaN.  When the Date column holds
    anything else (or a column is missing, or the input is null or
    empty) it returns [None]: the error is logged and the whole series is
    given up. *)
Theorem process_data_returns_all_rows_or_none (data : option DataFrame) :
  exists r l,
    process_data data = (Return r, l) /\
    match data, r with
    | Some d, Some out =>
        out = normalized d /\
        List.length (rows out) = List.length (rows d) /\
        forallb is_datetimelike (date_column d) = true
    | Some d, None =>
        empty d = true \/
        first_missing processed_columns d <> None \/
        forallb is_datetimelike (date_column d) = false
    | None, r => r = None
    end.
Proof.
  destruct data as [d |]; [| cbn; eauto].
  unfold process_data. destruct (empty d) eqn:He.
  { eexists. eexists. split; [reflexivity |]. left. reflexivity. }
  rewrite process_body_normalizes.
  destruct (first_missing processed_columns d) eqn:Hm.
  - cbn. eexists. eexists. split; [reflexivity |].
    right. left. discriminate.
  - destruct (forallb is_datetimelike (date_column d)) eqn:Hd.
    + cbn. eexists. eexists. split; [reflexivity |].
      repeat split. apply length_map.
    + cbn. eexists. eexists. split; [reflexivity |]. cbn. auto.
Qed.

(** C5, as the specification has it, fails.  The dates of
    [Sample.text_dates] are text, the second the thirtieth of February:
    [process_data] raises nothing and returns [None].  The second date of
    [Sample.missing_date] is NaT: [process_data] returns both rows, the
    second with NaN for its stock_date. *)
Lemma process_data_raises_no_format_error :
  has_malformed_date Sample.text_dates = true /\
  process_data (Some Sample.text_dates)
  = (Return None, [(ERROR, ErrorProcessing AttributeError)]) /\
  has_malformed_date Sample.missing_date = true /\
  exists out l,
    process_data (Some Sample.missing_date) = (Return (Some out), l) /\
    map (fun r => at_ r "stock_date") (rows out)
    = [Str "2024-01-02"; Float Float64.NaN].
Proof.
  split; [reflexivity |]. split; [reflexivity |]. split; [reflexivity |].
  eexists. eexists. split; vm_compute; reflexivity.
Qed.

(* ===================================================================== *)
(** * The stock_data table *)
(* ===================================================================== *)

Section TableFacts.

Import OracleDB.

Lemma varchar_eqb_sym (a b : option string) : varchar_eqb a b = varchar_eqb b a.
Proof.
  destruct a, b; cbn; auto using String.eqb_sym.
Qed.

Lemma same_key_sym (r r' : DbRow) : same_key r r' = same_key r' r.
Proof.
  unfold same_key.
  rewrite (varchar_eqb_sym (stock_date r)), (varchar_eqb_sym (ticker r)).
  reflexivity.
Qed.

Lemma varchar_eqb_true (a b : option string) :
  varchar_eqb a b = true -> a = b /\ varchar_eqb a a = true.
Proof.
  destruct a, b; cbn; try discriminate.
  intros H. apply String.eqb_eq in H. subst.
  rewrite String.eqb_refl. auto.
Qed.

Lemma same_key_trans (a b c : DbRow) :
  same_key a b = true -> same_key a c = same_key b c.
Proof.
  unfold same_key. intros H. apply andb_true_iff in H. destruct H as [H1 H2].
  apply varchar_eqb_true in H1, H2.
  destruct H1 as [-> _], H2 as [-> _]. reflexivity.
Qed.

Lemma same_key_refl_of (a b : DbRow) :
  same_key a b = true -> same_key a a = true.
Proof.
  unfold same_key. intros H. apply andb_true_iff in H. destruct H as [H1 H2].
  apply varchar_eqb_true in H1, H2.
  destruct H1 as [_ ->], H2 as [_ ->]. reflexivity.
Qed.

Lemma varchar_not_null (v : option string) :
  varchar_null v = false -> varchar_eqb v v = true.
Proof.
  destruct v; cbn; [| discriminate]. intros _. apply String.eqb_refl.
Qed.

Lemma violation_None (seen : list DbRow) (r : DbRow) :
  violation seen r = None ->
  existsb (same_key r) seen = false /\ same_key r r = true.
Proof.
  unfold violation.
  destruct (varchar_null (stock_date r)) eqn:Hd; [discriminate |].
  destruct (varchar_null (ticker r)) eqn:Ht; [discriminate |].
  cbn [orb].
  destruct (negb (varchar_fits 10 (stock_date r) && varchar_fits 10 (ticker r)));
    [discriminate |].
  destruct (existsb (same_key r) seen); [discriminate |].
  intros _. split; [reflexivity |].
  unfold same_key. rewrite (varchar_not_null _ Hd), (varchar_not_null _ Ht).
  reflexivity.
Qed.

Lemma violation_of_seen (seen : list DbRow) (r : DbRow) :
  In r seen -> exists ora, violation seen r = Some ora.
Proof.
  intros Hin. unfold violation.
  destruct (varchar_null (stock_date r)) eqn:Hd; [cbn; eauto |].
  destruct (varchar_null (ticker r)) eqn:Ht; [cbn; eauto |].
  cbn [orb].
  destruct (negb (varchar_fits 10 (stock_date r) && varchar_fits 10 (ticker r)));
    [eauto |].
  assert (Hex : existsb (same_key r) seen = true).
  { apply existsb_exists. exists r. split; [exact Hin |].
    unfold same_key. rewrite (varchar_not_null _ Hd), (varchar_not_null _ Ht).
    reflexivity. }
  rewrite Hex. eauto.
Qed.

Lemma primary_key_snoc (rs : list DbRow) (r : DbRow) :
  primary_key_holds rs = true ->
  existsb (same_key r) rs = false ->
  primary_key_holds (rs ++ [r]) = true.
Proof.
  induction rs as [| a rs IH]; cbn; [reflexivity |].
  intros Hpk Hex. apply andb_true_iff in Hpk. destruct Hpk as [Ha Hpk].
  apply orb_false_iff in Hex. destruct Hex as [Hra Hex].
  rewrite existsb_app. cbn. rewrite same_key_sym, Hra.
  apply negb_true_iff in Ha. rewrite Ha. cbn. auto.
Qed.

Lemma primary_key_prefix (rs rs' : list DbRow) :
  primary_key_holds (rs ++ rs') = true -> primary_key_holds rs = true.
Proof.
  induction rs as [| a rs IH]; cbn; [reflexivity |].
  intros H. apply andb_true_iff in H. destruct H as [Ha H].
  rewrite existsb_app in Ha. apply negb_true_iff, orb_false_iff in Ha.
  destruct Ha as [-> _]. cbn. auto.
Qed.

Lemma filter_none {A : Type} (f : A -> bool) (xs : list A) :
  (forall x, In x xs -> f x = false) -> filter f xs = [].
Proof.
  induction xs as [| x xs IH]; cbn; intros H; [reflexivity |].
  rewrite (H x (or_introl eq_refl)). auto.
Qed.

(** Under the primary key no key is there twice. *)
Lemma primary_key_at_most_one (rs : list DbRow) (r : DbRow) :
  primary_key_holds rs = true ->
  (List.length (rows_with_key r rs) <= 1)%nat.
Proof.
  unfold rows_with_key. intros Hpk.
  induction rs as [| a rs IH]; [cbn; lia |].
  cbn in Hpk. apply andb_true_iff in Hpk. destruct Hpk as [Ha Hpk].
  apply negb_true_iff in Ha. cbn [filter].
  destruct (same_key r a) eqn:Hra; [| auto].
  assert (Hnone : filter (same_key r) rs = []).
  { apply filter_none. intros x Hx.
    rewrite (same_key_trans r a x Hra).
    destruct (same_key a x) eqn:Hax; [| reflexivity].
    assert (existsb (same_key a) rs = true)
      by (apply existsb_exists; eauto).
    congruence. }
  rewrite Hnone. cbn. lia.
Qed.

(** Under the primary key a key that is there is there once. *)
Lemma primary_key_one_row (rs : list DbRow) (r : DbRow) :
  primary_key_holds rs = true ->
  In r rs -> same_key r r = true ->
  List.length (rows_with_key r rs) = 1%nat.
Proof.
  unfold rows_with_key. intros Hpk Hin Hrr.
  induction rs as [| a rs IH]; [contradiction |].
  cbn in Hpk. apply andb_true_iff in Hpk. destruct Hpk as [Ha Hpk].
  apply negb_true_iff in Ha. cbn [filter].
  destruct (same_key r a) eqn:Hra.
  - assert (Hnone : filter (same_key r) rs = []).
    { apply filter_none. intros x Hx.
      rewrite (same_key_trans r a x Hra).
      destruct (same_key a x) eqn:Hax; [| reflexivity].
      assert (existsb (same_key a) rs = true)
        by (apply existsb_exists; eauto).
      congruence. }
    rewrite Hnone. reflexivity.
  - destruct Hin as [-> | Hin]; [congruence |]. auto.
Qed.

End TableFacts.

Section WriteFacts.

Import OracleDB.

Variable driver : Driver.

Lemma session_rows_snoc (c : Connection) (t : list DbRow) (r : DbRow) :
  stock_data c = Some t ->
  session_rows (mkConn (Some t) (uncommitted c ++ [r])) = session_rows c ++ [r].
Proof.
  intros Ht. unfold session_rows, committed_rows. cbn. rewrite Ht.
  apply app_assoc.
Qed.

Lemma insert_rows_spec (rs : list DbRow) (c : Connection)
      (o : outcome unit) (c' : Connection) :
  insert_rows c rs = (o, c') ->
  stock_data c' = stock_data c /\
  (primary_key_holds (session_rows c) = true ->
   primary_key_holds (session_rows c') = true) /\
  (forall e, o = Raise e -> is_oracledb_Error e = true) /\
  (forall u, o = Return u ->
             uncommitted c' = uncommitted c ++ rs /\
             (rs <> [] -> stock_data c <> None) /\
             (forall r, In r rs -> same_key r r = true)).
Proof.
  revert c. induction rs as [| r rs IH]; intros c H; cbn in H.
  - inversion H. subst. split; [reflexivity |]. split; [auto |].
    split; [discriminate |]. intros u _.
    split; [symmetry; apply app_nil_r |]. split; [congruence | contradiction].
  - destruct (stock_data c) as [t |] eqn:Ht.
    + destruct (violation (session_rows c) r) as [ora |] eqn:Hv.
      * inversion H. subst. split; [congruence |]. split; [auto |].
        split; [| discriminate]. intros e He. inversion He. reflexivity.
      * apply IH in H. destruct H as (H1 & H2 & H3 & H4).
        cbn [stock_data uncommitted] in H1, H4.
        rewrite (session_rows_snoc c t r Ht) in H2.
        apply violation_None in Hv. destruct Hv as [Hv Hrr].
        split; [congruence |]. split.
        { intros Hpk. apply H2. apply primary_key_snoc; assumption. }
        split; [exact H3 |]. intros u Hu.
        destruct (H4 u Hu) as (Hun & _ & Hk).
        split; [rewrite Hun, <- app_assoc; reflexivity |].
        split; [discriminate |].
        intros r' [<- | Hin]; auto.
    + inversion H. subst. split; [congruence |]. split; [auto |].
      split; [| discriminate]. intros e He. inversion He. reflexivity.
Qed.

(** A refused INSERT leaves in the transaction the rows that came before
    the refused one, and no other. *)
Lemma insert_rows_Raise (rs : list DbRow) (c c' : Connection) (e : exn) :
  insert_rows c rs = (Raise e, c') ->
  exists kept rest,
    rs = kept ++ rest /\ rest <> [] /\
    uncommitted c' = uncommitted c ++ kept.
Proof.
  revert c. induction rs as [| r rs IH]; intros c H; cbn in H;
    [discriminate |].
  destruct (stock_data c) as [t |] eqn:Ht.
  - destruct (violation (session_rows c) r) as [ora |] eqn:Hv.
    + inversion H. subst. exists [], (r :: rs).
      split; [reflexivity |]. split; [discriminate |].
      symmetry. apply app_nil_r.
    + apply IH in H. destruct H as (kept & rest & Hrs & Hrest & Hun).
      cbn [uncommitted] in Hun. exists (r :: kept), rest.
      split; [cbn; rewrite Hrs; reflexivity |]. split; [exact Hrest |].
      rewrite Hun, <- app_assoc. reflexivity.
  - inversion H. subst. exists [], (r :: rs).
    split; [reflexivity |]. split; [discriminate |].
    symmetry. apply app_nil_r.
Qed.

Lemma bind_all_length (tuples : list (list Cell)) (rs : list DbRow) :
  bind_all driver tuples = inl rs -> List.length rs = List.length tuples.
Proof.
  revert rs. induction tuples as [| t ts IH]; cbn; intros rs H.
  - inversion H. reflexivity.
  - destruct (bind_tuple driver t); [| discriminate].
    destruct (bind_all driver ts) as [rs' |]; [| discriminate].
    inversion H. cbn. rewrite (IH rs'); reflexivity.
Qed.

Lemma executemany_spec (tuples : list (list Cell)) (c : Connection)
      (o : outcome unit) (c' : Connection) :
  executemany driver tuples c = (o, c') ->
  stock_data c' = stock_data c /\
  (primary_key_holds (session_rows c) = true ->
   primary_key_holds (session_rows c') = true) /\
  (forall e, o = Raise e -> is_oracledb_Error e = true) /\
  (forall u, o = Return u ->
             exists rs, bind_all driver tuples = inl rs /\
                        uncommitted c' = uncommitted c ++ rs /\
                        (rs <> [] -> stock_data c <> None) /\
                        (forall r, In r rs -> same_key r r = true)).
Proof.
  unfold executemany. destruct (bind_all driver tuples) as [rs | ora].
  - destruct (insert_rows c rs) as [[u | e] c1] eqn:Hi; intros H;
      inversion H; subst; clear H;
      destruct (insert_rows_spec _ _ _ _ Hi) as (H1 & H2 & H3 & H4).
    + split; [exact H1 |]. split; [exact H2 |]. split; [discriminate |].
      intros u' _. exists rs. split; [reflexivity |]. exact (H4 u eq_refl).
    + destruct (keeps_rows_before_error driver).
      * split; [exact H1 |]. split; [exact H2 |]. split; [exact H3 |].
        discriminate.
      * split; [reflexivity |]. split; [auto |]. split; [exact H3 |].
        discriminate.
  - intros H. inversion H. subst. split; [reflexivity |]. split; [auto |].
    split; [| discriminate]. intros e He. inversion He. reflexivity.
Qed.

(** What a refused [executemany] leaves uncommitted: with a driver that
    keeps them, the rows of the batch before the refused one; with a
    driver that does not, nothing. *)
Lemma executemany_Raise (tuples : list (list Cell)) (c c' : Connection)
      (e : exn) :
  executemany driver tuples c = (Raise e, c') ->
  exists kept,
    uncommitted c' = uncommitted c ++ kept /\
    (keeps_rows_before_error driver = false -> kept = []) /\
    (forall ora, bind_all driver tuples = inr ora -> kept = []) /\
    (forall rs, bind_all driver tuples = inl rs ->
                exists rest, rs = kept ++ rest /\ rest <> []).
Proof.
  unfold executemany. destruct (bind_all driver tuples) as [rs | ora].
  - destruct (insert_rows c rs) as [[u | e'] c1] eqn:Hi; [discriminate |].
    destruct (insert_rows_Raise _ _ _ _ Hi) as (kept & rest & Hrs & Hrest & Hun).
    destruct (keeps_rows_before_error driver); intros H; inversion H; subst.
    + exists kept. split; [exact Hun |]. split; [discriminate |].
      split; [discriminate |].
      intros rs' Hb. inversion Hb. subst. exists rest. auto.
    + exists []. split; [symmetry; apply app_nil_r |]. split; [reflexivity |].
      split; [reflexivity |].
      intros rs' Hb. inversion Hb. subst. exists (kept ++ rest).
      split; [reflexivity |]. destruct kept; [exact Hrest | discriminate].
  - intros H. inversion H. subst. exists [].
    split; [symmetry; apply app_nil_r |]. split; [reflexivity |].
    split; [reflexivity | discriminate].
Qed.

(** [store_data] on a frame that is not empty. *)
Lemma store_data_nonempty (d : DataFrame) (c : Connection) :
  empty d = false ->
  store_data driver (Some d) c
  = match executemany driver (to_numpy d) c with
    | (Return _, c') => (Return tt, commit c', [(INFO, DataStored)])
    | (Raise e, c') =>
        if is_oracledb_Error e
        then (Raise e, c', [(ERROR, ErrorStoring e)])
        else (Raise e, c', [])
    end.
Proof.
  intros He. unfold store_data, store_body. rewrite He.
  cbn -[executemany commit to_numpy].
  destruct (executemany driver (to_numpy d) c) as [[u | e] c'];
    cbn -[executemany commit to_numpy]; [reflexivity |].
  destruct (is_oracledb_Error e); reflexivity.
Qed.

Lemma store_data_empty (b : option DataFrame) (c : Connection) :
  match b with
  | None => true
  | Some d => empty d
  end = true ->
  store_data driver b c = (Return tt, c, [(WARNING, NoDataToStore)]).
Proof.
  destruct b as [d |]; cbn; [| reflexivity]. intros ->. reflexivity.
Qed.

Lemma session_rows_commit (c : Connection) (t : list DbRow) :
  stock_data c = Some t ->
  stock_data (commit c) = Some (session_rows c) /\ uncommitted (commit c) = [].
Proof.
  intros Ht. unfold commit, session_rows, committed_rows. rewrite Ht.
  cbn. auto.
Qed.

Lemma primary_key_commit (c : Connection) :
  primary_key_holds (session_rows c) = true ->
  primary_key_holds (session_rows (commit c)) = true.
Proof.
  unfold commit, session_rows, committed_rows.
  destruct (stock_data c) as [t |]; cbn; [| reflexivity].
  rewrite app_nil_r. auto.
Qed.

(** A write, whatever its outcome, keeps the primary key. *)
Lemma store_data_keeps_primary_key (b : option DataFrame) (c : Connection) :
  primary_key_holds (session_rows c) = true ->
  primary_key_holds (session_rows (connection_after (store_data driver b c)))
  = true.
Proof.
  intros Hpk.
  destruct (match b with None => true | Some d => empty d end) eqn:He.
  - rewrite store_data_empty; auto.
  - destruct b as [d |]; [| discriminate].
    rewrite store_data_nonempty; auto.
    destruct (executemany driver (to_numpy d) c) as [[u | e] c'] eqn:Hx;
      destruct (executemany_spec _ _ _ _ Hx) as (_ & H2 & _).
    + cbn. apply primary_key_commit. auto.
    + destruct (is_oracledb_Error e); cbn; auto.
Qed.

Lemma after_writes_keeps_primary_key (batches : list (option DataFrame))
      (c : Connection) :
  primary_key_holds (session_rows c) = true ->
  primary_key_holds (session_rows (after_writes driver batches c)) = true.
Proof.
  unfold after_writes. revert c.
  induction batches as [| b bs IH]; cbn [fold_left]; intros c Hpk; [exact Hpk |].
  apply IH. apply store_data_keeps_primary_key. exact Hpk.
Qed.

End WriteFacts.

(** [create_table] leaves an empty table behind, whatever it found. *)
Lemma create_table_leaves_empty_table (c : OracleDB.Connection) :
  create_table c = (Return tt, OracleDB.mkConn (Some []) [], [(INFO, TableCreated)]).
Proof.
  destruct c as [[t |] u]; reflexivity.
Qed.

Lemma nonempty_frame_has_rows (d : DataFrame) : empty d = false -> rows d <> [].
Proof.
  unfold empty. destruct (columns d), (rows d); congruence.
Qed.

(** What a successful write of a frame that is not empty leaves. *)
Lemma store_data_Return (driver : OracleDB.Driver) (d : DataFrame)
      (c c1 : OracleDB.Connection) (u : unit) (l : list LogRecord) :
  empty d = false ->
  store_data driver (Some d) c = (Return u, c1, l) ->
  exists rs,
    OracleDB.bind_all driver (to_numpy d) = inl rs /\
    rs <> [] /\
    OracleDB.stock_data c1 = Some (OracleDB.session_rows c ++ rs) /\
    OracleDB.uncommitted c1 = [] /\
    (forall r, In r rs -> OracleDB.same_key r r = true) /\
    (primary_key_holds (OracleDB.session_rows c) = true ->
     primary_key_holds (OracleDB.session_rows c ++ rs) = true).
Proof.
  intros He H. rewrite (store_data_nonempty driver d c He) in H.
  destruct (OracleDB.executemany driver (to_numpy d) c) as [[u' | e] c'] eqn:Hx.
  - inversion H. subst. clear H.
    destruct (executemany_spec _ _ _ _ _ Hx) as (H1 & H2 & _ & H4).
    destruct (H4 u' eq_refl) as (rs & Hb & Hun & Hex & Hk).
    assert (Hrs : rs <> []).
    { intros ->. apply bind_all_length in Hb. cbn in Hb.
      unfold to_numpy in Hb. rewrite length_map in Hb.
      apply (nonempty_frame_has_rows d He).
      destruct (rows d); [reflexivity | discriminate]. }
    destruct (OracleDB.stock_data c) as [t |] eqn:Ht;
      [| exfalso; exact (Hex Hrs eq_refl)].
    assert (Hs : OracleDB.session_rows c' = OracleDB.session_rows c ++ rs).
    { unfold OracleDB.session_rows, OracleDB.committed_rows.
      rewrite H1, Ht, Hun. apply app_assoc. }
    destruct (session_rows_commit c' t H1) as [Hc Hu].
    exists rs. rewrite Hc, Hu, Hs. repeat split; auto.
    intros Hpk. rewrite <- Hs. apply H2. exact Hpk.
  - destruct (is_oracledb_Error e); discriminate.
Qed.

(** The same frame written again is refused and leaves the connection as
    it was. *)
Lemma store_data_again_raises (driver : OracleDB.Driver) (d : DataFrame)
      (c c1 : OracleDB.Connection) (u : unit) (l : list LogRecord) :
  empty d = false ->
  store_data driver (Some d) c = (Return u, c1, l) ->
  exists ora,
    store_data driver (Some d) c1
    = (Raise (OracleError ora), c1, [(ERROR, ErrorStoring (OracleError ora))]).
Proof.
  intros He H.
  destruct (store_data_Return _ _ _ _ _ _ He H)
    as (rs & Hb & Hrs & Ht & Hu & _ & _).
  rewrite (store_data_nonempty driver d c1 He).
  unfold OracleDB.executemany. rewrite Hb.
  destruct rs as [| r rs]; [congruence |].
  cbn [OracleDB.insert_rows]. rewrite Ht.
  destruct (violation_of_seen (OracleDB.session_rows c1) r) as [ora Hv].
  { unfold OracleDB.session_rows, OracleDB.committed_rows. rewrite Ht, Hu.
    rewrite app_nil_r. apply in_or_app. right. left. reflexivity. }
  rewrite Hv. exists ora.
  destruct (OracleDB.keeps_rows_before_error driver); reflexivity.
Qed.

(* ===================================================================== *)
(** * store_data and create_table *)
(* ===================================================================== *)

(** C7, as the code has it.  A call of [store_data] with a batch that is
    not empty either returns or raises a database error that it has
    logged.  When it returns, the committed table is what the session saw
    before (the rows an earlier refused write left in the transaction
    among them) followed by every record of the batch, and nothing is left
    uncommitted.  When it raises, the call has committed nothing: the
    committed table is the one from before the call.  [store_data] rolls
    nothing back, so the transaction of the connection then holds what it
    held before followed by the rows [kept]: a part of the batch that
    stops before its end, empty when the driver discards the rows inserted
    before the refused one or when a tuple could not be bound. *)
Theorem store_data_commits_all_or_leaves_rows_pending
        (driver : OracleDB.Driver) (d : DataFrame) (c : OracleDB.Connection) :
  empty d = false ->
  match store_data driver (Some d) c with
  | (Return _, c', _) =>
      exists rs,
        OracleDB.bind_all driver (to_numpy d) = inl rs /\
        OracleDB.stock_data c' = Some (OracleDB.session_rows c ++ rs) /\
        OracleDB.uncommitted c' = []
  | (Raise e, c', l) =>
      is_oracledb_Error e = true /\
      In (ERROR, ErrorStoring e) l /\
      OracleDB.stock_data c' = OracleDB.stock_data c /\
      exists kept,
        OracleDB.uncommitted c' = OracleDB.uncommitted c ++ kept /\
        (OracleDB.keeps_rows_before_error driver = false -> kept = []) /\
        (forall ora, OracleDB.bind_all driver (to_numpy d) = inr ora -> kept = []) /\
        (forall rs, OracleDB.bind_all driver (to_numpy d) = inl rs ->
                    exists rest, rs = kept ++ rest /\ rest <> [])
  end.
Proof.
  intros He.
  destruct (store_data driver (Some d) c) as [[[u | e] c'] l] eqn:H.
  - destruct (store_data_Return _ _ _ _ _ _ He H)
      as (rs & Hb & _ & Ht & Hu & _).
    exists rs. auto.
  - rewrite (store_data_nonempty driver d c He) in H.
    destruct (OracleDB.executemany driver (to_numpy d) c) as [[u | e'] c1] eqn:Hx;
      [discriminate |].
    destruct (executemany_spec _ _ _ _ _ Hx) as (H1 & _ & H3 & _).
    rewrite (H3 e' eq_refl) in H. inversion H. subst.
    split; [auto |]. split; [left; reflexivity |]. split; [exact H1 |].
    exact (executemany_Raise _ _ _ _ _ Hx).
Qed.

Lemma store_data_commits_all_or_leaves_rows_pending_witness :
  match store_data (Sample.driver true)
                   (Some (normalized Sample.repeated_day))
                   Sample.fresh with
  | (Return _, c', _) =>
      exists rs,
        OracleDB.bind_all (Sample.driver true)
          (to_numpy (normalized Sample.repeated_day)) = inl rs /\
        OracleDB.stock_data c' = Some (OracleDB.session_rows Sample.fresh ++ rs) /\
        OracleDB.uncommitted c' = []
  | (Raise e, c', l) =>
      is_oracledb_Error e = true /\
      In (ERROR, ErrorStoring e) l /\
      OracleDB.stock_data c' = OracleDB.stock_data Sample.fresh /\
      exists kept,
        OracleDB.uncommitted c' = OracleDB.uncommitted Sample.fresh ++ kept /\
        (OracleDB.keeps_rows_before_error (Sample.driver true) = false ->
         kept = []) /\
        (forall ora,
            OracleDB.bind_all (Sample.driver true)
              (to_numpy (normalized Sample.repeated_day)) = inr ora ->
            kept = []) /\
        (forall rs,
            OracleDB.bind_all (Sample.driver true)
              (to_numpy (normalized Sample.repeated_day)) = inl rs ->
            exists rest, rs = kept ++ rest /\ rest <> [])
  end.
Proof.
  apply (store_data_commits_all_or_leaves_rows_pending
           (Sample.driver true) (normalized Sample.repeated_day) Sample.fresh).
  reflexivity.
Defined.

(** C7, as the specification has it, fails.  The provider dated two bars
    of AAPL the same day, so the second record of the batch repeats the
    key of the first and the write is refused (ORA-00001).  With a driver
    that keeps the rows inserted before the refused one, the first record
    stays in the transaction, and the next write that succeeds on the
    connection, here one day of MSFT, commits it: of the refused batch the
    first record (close 100) is in the committed table and the second
    (close 101) is not. *)
Lemma refused_batch_is_committed_in_part :
  let refused :=
    store_data (Sample.driver true) (Some (normalized Sample.repeated_day))
               Sample.fresh in
  let next :=
    store_data (Sample.driver true)
               (Some (normalized (Sample.fetched "MSFT" [100])))
               (connection_after refused) in
  outcome_of refused = Raise (OracleError 1) /\
  outcome_of next = Return tt /\
  map (fun r => (OracleDB.ticker r, OracleDB.close r))
      (OracleDB.committed_rows (connection_after next))
  = [(Some "AAPL", Some 100); (Some "MSFT", Some 100)].
Proof.
  repeat split; vm_compute; reflexivity.
Qed.

(** A batch whose second record repeats the key of the first: the write
    raises ORA-00001 and commits nothing.  With a driver that keeps the
    rows inserted before the failing one, the first record stays in the
    open transaction of the connection, for [store_data] does not roll
    back; readers of the committed table do not see it. *)
Lemma refused_batch_commits_nothing :
  store_data (Sample.driver true) (Some (normalized Sample.repeated_day))
             Sample.fresh
  = (Raise (OracleError 1),
     OracleDB.mkConn (Some [])
       [OracleDB.mkRow (Some "2024-01-02") (Some "AAPL") (Some 100) (Some 100)
                       (Some 100) (Some 100) (Some 1000)],
     [(ERROR, ErrorStoring (OracleError 1))]) /\
  store_data (Sample.driver false) (Some (normalized Sample.repeated_day))
             Sample.fresh
  = (Raise (OracleError 1), Sample.fresh,
     [(ERROR, ErrorStoring (OracleError 1))]).
Proof.
  split; vm_compute; reflexivity.
Qed.

(** With such a driver the record that stayed in the transaction is
    committed by the next write that succeeds on the connection. *)
Lemma pending_row_committed_by_next_write :
  let failed :=
    connection_after
      (store_data (Sample.driver true) (Some (normalized Sample.repeated_day))
                  Sample.fresh) in
  let next :=
    connection_after
      (store_data (Sample.driver true)
                  (Some (normalized (Sample.fetched "MSFT" [100]))) failed) in
  OracleDB.committed_rows failed = [] /\
  map OracleDB.ticker (OracleDB.committed_rows next) = [Some "AAPL"; Some "MSFT"].
Proof.
  split; vm_compute; reflexivity.
Qed.

(** C6.  Start from the table that [create_table] establishes and let a
    caller write any sequence of batches on the connection, going on after
    a refused one.  Then no two rows with the same (stock_date, ticker)
    are in the committed table, nor among the rows the session sees: a key
    has one row at most.  And
    when a batch has been written with success, each of its records is the
    one row of its key, and writing the same batch again raises a database
    error and leaves the connection as it was. *)
Theorem primary_key_never_violated
        (driver : OracleDB.Driver) (c0 : OracleDB.Connection)
        (batches : list (option DataFrame)) :
  let c := after_writes driver batches (connection_after (create_table c0)) in
  primary_key_holds (OracleDB.committed_rows c) = true /\
  primary_key_holds (OracleDB.session_rows c) = true /\
  (forall r,
      (List.length (rows_with_key r (OracleDB.committed_rows c)) <= 1)%nat) /\
  forall d c1 u l,
    empty d = false ->
    store_data driver (Some d) c = (Return u, c1, l) ->
    (exists rs,
        OracleDB.bind_all driver (to_numpy d) = inl rs /\
        forall r, In r rs ->
                  List.length (rows_with_key r (OracleDB.committed_rows c1)) = 1%nat) /\
    exists e,
      store_data driver (Some d) c1 = (Raise e, c1, [(ERROR, ErrorStoring e)]) /\
      is_oracledb_Error e = true.
Proof.
  intros c.
  assert (Hpk : primary_key_holds (OracleDB.session_rows c) = true).
  { apply after_writes_keeps_primary_key.
    rewrite create_table_leaves_empty_table. reflexivity. }
  split; [exact (primary_key_prefix _ _ Hpk) |]. split; [exact Hpk |].
  split.
  { intros r. apply primary_key_at_most_one.
    exact (primary_key_prefix _ _ Hpk). }
  intros d c1 u l He H. split.
  - destruct (store_data_Return _ _ _ _ _ _ He H)
      as (rs & Hb & _ & Ht & _ & Hk & Hkeep).
    exists rs. split; [exact Hb |]. intros r Hr.
    unfold OracleDB.committed_rows. rewrite Ht.
    apply primary_key_one_row; auto.
    apply in_or_app. right. exact Hr.
  - destruct (store_data_again_raises _ _ _ _ _ _ He H) as [ora Ho].
    exists (OracleError ora). split; [exact Ho | reflexivity].
Qed.

Lemma primary_key_never_violated_witness :
  let c :=
    after_writes (Sample.driver true)
                 [Some (normalized (Sample.fetched "AAPL" [100; 110]))]
                 (connection_after (create_table Sample.earlier_run)) in
  primary_key_holds (OracleDB.session_rows c) = true /\
  exists c1 e,
    store_data (Sample.driver true)
               (Some (normalized (Sample.fetched "MSFT" [100]))) c1
    = (Raise e, c1, [(ERROR, ErrorStoring e)]) /\
    is_oracledb_Error e = true.
Proof.
  intros c.
  destruct (primary_key_never_violated
              (Sample.driver true) Sample.earlier_run
              [Some (normalized (Sample.fetched "AAPL" [100; 110]))])
    as (_ & H2 & _ & H3).
  split; [exact H2 |].
  edestruct (H3 (normalized (Sample.fetched "MSFT" [100]))) as (_ & e & He & Ho);
    [reflexivity | vm_compute; reflexivity |].
  eexists. exists e. split; [exact He | exact Ho].
Defined.

(** C8, on the code.  [Sample.earlier_run] is a database in which an
    earlier run committed one row.  [create_table], which the constructor
    of a new pipeline instance calls, returns without error and leaves the
    table empty: the DROP TABLE of its first statement removed the row. *)
Theorem create_table_discards_stored_rows :
  OracleDB.committed_rows Sample.earlier_run = [Sample.stored_row] /\
  create_table Sample.earlier_run
  = (Return tt, OracleDB.mkConn (Some []) [], [(INFO, TableCreated)]).
Proof.
  split; reflexivity.
Qed.

(* ===================================================================== *)
(** * run_pipeline *)
(* ===================================================================== *)

Section StageFacts.

Variable history : string -> string -> string -> outcome IndexedFrame.

Lemma fetch_stock_data_returns (ticker start_date end_date : string) :
  exists r l, fetch_stock_data history ticker start_date end_date = (Return r, l).
Proof.
  unfold fetch_stock_data. apply try_except_all_returns.
  intros e. cbn. eauto.
Qed.

Lemma fetch_stock_data_failure (ticker start_date end_date : string) (e : exn) :
  history ticker start_date end_date = Raise e ->
  fetch_stock_data history ticker start_date end_date
  = (Return None, [(ERROR, ErrorFetching ticker e)]).
Proof.
  intros H. unfold fetch_stock_data, fetch_body. rewrite H. reflexivity.
Qed.

Lemma validate_data_returns (data : option DataFrame) :
  exists r l, validate_data data = (Return r, l).
Proof.
  destruct data as [d |]; unfold validate_data; [| cbn; eauto].
  destruct (empty d); [cbn; eauto |].
  apply try_except_all_returns. intros e. cbn. eauto.
Qed.

Lemma process_data_returns (data : option DataFrame) :
  exists r l, process_data data = (Return r, l).
Proof.
  destruct data as [d |]; unfold process_data; [| cbn; eauto].
  destruct (empty d); [cbn; eauto |].
  apply try_except_all_returns. intros e. cbn. eauto.
Qed.

(** A [try] block under [except Exception] whose handler logs the
    exception and returns [None]. *)
Lemma try_except_logs_and_returns_None {A : Type} (body : Logged (option A))
      (msg : exn -> message) :
  try_except body is_Exception (fun e => logger ERROR (msg e) ;; ret None)
  = match body with
    | (Return r, l) => (Return r, l)
    | (Raise e, l) => (Return None, l ++ [(ERROR, msg e)])
    end.
Proof.
  destruct body as [[r | e] l]; reflexivity.
Qed.

Lemma fetch_stock_data_cases (ticker start_date end_date : string) :
  fetch_stock_data history ticker start_date end_date
  = match fetch_body history ticker start_date end_date with
    | (Return r, l) => (Return r, l)
    | (Raise e, l) => (Return None, l ++ [(ERROR, ErrorFetching ticker e)])
    end.
Proof.
  unfold fetch_stock_data.
  apply (try_except_logs_and_returns_None
           (fetch_body history ticker start_date end_date)
           (ErrorFetching ticker)).
Qed.

Lemma validate_data_cases (data : option DataFrame) :
  validate_data data
  = match data with
    | None => (Return None, [(WARNING, NoDataToValidate)])
    | Some d =>
        if empty d
        then (Return None, [(WARNING, NoDataToValidate)])
        else match validate_body d with
             | (Return r, l) => (Return r, l)
             | (Raise e, l) => (Return None, l ++ [(ERROR, ErrorValidating e)])
             end
    end.
Proof.
  destruct data as [d |]; [| reflexivity]. unfold validate_data.
  destruct (empty d); [reflexivity |].
  apply (try_except_logs_and_returns_None (validate_body d) ErrorValidating).
Qed.

Lemma process_data_cases (data : option DataFrame) :
  process_data data
  = match data with
    | None => (Return None, [(WARNING, NoDataToProcess)])
    | Some d =>
        if empty d
        then (Return None, [(WARNING, NoDataToProcess)])
        else match process_body d with
             | (Return r, l) => (Return r, l)
             | (Raise e, l) => (Return None, l ++ [(ERROR, ErrorProcessing e)])
             end
    end.
Proof.
  destruct data as [d |]; [| reflexivity]. unfold process_data.
  destruct (empty d); [reflexivity |].
  apply (try_except_logs_and_returns_None (process_body d) ErrorProcessing).
Qed.

(** The log of a stage names no ticker as started. *)
Lemma started_app (l1 l2 : list LogRecord) :
  started (l1 ++ l2) = started l1 ++ started l2.
Proof.
  unfold started. apply flat_map_app.
Qed.

Lemma quiet_bind {A B : Type} (c : Logged A) (k : A -> Logged B) :
  started (snd c) = [] ->
  (forall a, started (snd (k a)) = []) ->
  started (snd (bind c k)) = [].
Proof.
  destruct c as [[a | e] l]; cbn [bind PyMonad_Logged snd]; intros Hc Hk.
  - specialize (Hk a). destruct (k a) as [o l']. cbn [snd] in *.
    rewrite started_app, Hc, Hk. reflexivity.
  - exact Hc.
Qed.

Lemma quiet_try_except {A : Type} (c : Logged A) (catches : exn -> bool)
      (handler : exn -> Logged A) :
  started (snd c) = [] ->
  (forall e, started (snd (handler e)) = []) ->
  started (snd (try_except c catches handler)) = [].
Proof.
  destruct c as [[a | e] l]; cbn [try_except PyMonad_Logged snd]; intros Hc Hh.
  - exact Hc.
  - destruct (catches e); [| exact Hc].
    specialize (Hh e). destruct (handler e) as [o l']. cbn [snd] in *.
    rewrite started_app, Hc, Hh. reflexivity.
Qed.

Lemma quiet_lift_outcome {A : Type} (o : outcome A) :
  started (snd (lift_outcome (m := Logged) o)) = [].
Proof.
  destruct o; reflexivity.
Qed.

Ltac quiet :=
  repeat first
         [ apply quiet_lift_outcome
         | apply quiet_bind
         | apply quiet_try_except
         | reflexivity
         | intro
         | match goal with
           | |- context [if ?b then _ else _] => destruct b
           end ].

Lemma fetch_stock_data_quiet (ticker start_date end_date : string) :
  started (snd (fetch_stock_data history ticker start_date end_date)) = [].
Proof.
  unfold fetch_stock_data, fetch_body. quiet.
Qed.

Lemma validate_data_quiet (data : option DataFrame) :
  started (snd (validate_data data)) = [].
Proof.
  destruct data as [d |]; [| reflexivity].
  unfold validate_data, validate_body, drop_incomplete, drop_extreme. quiet.
Qed.

Lemma process_data_quiet (data : option DataFrame) :
  started (snd (process_data data)) = [].
Proof.
  destruct data as [d |]; [| reflexivity].
  unfold process_data, process_body. quiet.
Qed.

End StageFacts.

Section RunFacts.

Variable history : string -> string -> string -> outcome IndexedFrame.
Variable driver : OracleDB.Driver.

Lemma store_data_Raise (b : option DataFrame) (c c' : OracleDB.Connection)
      (e : exn) (l : list LogRecord) :
  store_data driver b c = (Raise e, c', l) ->
  is_oracledb_Error e = true /\
  l = [(ERROR, ErrorStoring e)] /\
  OracleDB.stock_data c' = OracleDB.stock_data c.
Proof.
  destruct (match b with None => true | Some d => empty d end) eqn:He.
  - rewrite store_data_empty; [discriminate | exact He].
  - destruct b as [d |]; [| discriminate].
    rewrite store_data_nonempty; [| exact He].
    destruct (OracleDB.executemany driver (to_numpy d) c) as [[u | e'] c1] eqn:Hx;
      [discriminate |].
    destruct (executemany_spec _ _ _ _ _ Hx) as (H1 & _ & H3 & _).
    rewrite (H3 e' eq_refl). intros H. inversion H. subst.
    rewrite (H3 e eq_refl). auto.
Qed.

(** One iteration of the loop, once the three stages have returned. *)
Lemma run_ticker_stages (ticker start_date end_date : string)
      (c : OracleDB.Connection)
      (raw validated processed : option DataFrame)
      (lf lv lp : list LogRecord) :
  fetch_stock_data history ticker start_date end_date = (Return raw, lf) ->
  validate_data raw = (Return validated, lv) ->
  process_data validated = (Return processed, lp) ->
  run_ticker history driver ticker start_date end_date c
  = let '(o, c', ls) := store_data driver processed c in
    (o, c', (INFO, StartingPipeline ticker) :: lf ++ lv ++ lp ++ ls).
Proof.
  intros Hf Hv Hp. unfold run_ticker, pure_stage.
  cbn [bind PyMonad_Py logger]. rewrite Hf. cbn [fst snd].
  rewrite Hv. cbn [fst snd]. rewrite Hp. cbn [fst snd].
  destruct (store_data driver processed c) as [[o c'] ls].
  reflexivity.
Qed.

Lemma run_pipeline_cons (ticker : string) (rest : list string)
      (start_date end_date : string) (c : OracleDB.Connection) :
  run_pipeline history driver (ticker :: rest) start_date end_date c
  = match run_ticker history driver ticker start_date end_date c with
    | (Return _, c1, l1) =>
        let '(o, c2, l2) :=
          run_pipeline history driver rest start_date end_date c1 in
        (o, c2, l1 ++ l2)
    | (Raise x, c1, l1) => (Raise x, c1, l1)
    end.
Proof.
  reflexivity.
Qed.

Lemma started_run_ticker (ticker start_date end_date : string)
      (c : OracleDB.Connection) :
  started (log_of (run_ticker history driver ticker start_date end_date c))
  = [ticker] /\
  forall x, outcome_of (run_ticker history driver ticker start_date end_date c)
            = Raise x ->
            is_oracledb_Error x = true /\
            In (ERROR, ErrorStoring x)
               (log_of (run_ticker history driver ticker start_date end_date c)).
Proof.
  destruct (fetch_stock_data_returns history ticker start_date end_date)
    as (raw & lf & Hf).
  destruct (validate_data_returns raw) as (validated & lv & Hv).
  destruct (process_data_returns validated) as (processed & lp & Hp).
  rewrite (run_ticker_stages _ _ _ c _ _ _ _ _ _ Hf Hv Hp).
  pose proof (fetch_stock_data_quiet history ticker start_date end_date) as Qf.
  pose proof (validate_data_quiet raw) as Qv.
  pose proof (process_data_quiet validated) as Qp.
  rewrite Hf in Qf. rewrite Hv in Qv. rewrite Hp in Qp. cbn [snd] in Qf, Qv, Qp.
  destruct (store_data driver processed c) as [[o c'] ls] eqn:Hs.
  unfold log_of, outcome_of. cbn [fst snd]. split.
  - change ((INFO, StartingPipeline ticker) :: lf ++ lv ++ lp ++ ls)
      with ([(INFO, StartingPipeline ticker)] ++ lf ++ lv ++ lp ++ ls).
    rewrite !started_app, Qf, Qv, Qp. cbn [app].
    destruct o as [u | x].
    + destruct (match processed with None => true | Some d => empty d end) eqn:He.
      * rewrite store_data_empty in Hs; [| exact He]. inversion Hs. reflexivity.
      * destruct processed as [d |]; [| discriminate].
        rewrite store_data_nonempty in Hs; [| exact He].
        destruct (OracleDB.executemany driver (to_numpy d) c) as [[u' | e'] c1];
          [inversion Hs; reflexivity |].
        destruct (is_oracledb_Error e'); discriminate.
    + apply store_data_Raise in Hs. destruct Hs as (_ & -> & _). reflexivity.
  - intros x ->. apply store_data_Raise in Hs. destruct Hs as (Ho & -> & _).
    split; [exact Ho |]. right.
    apply in_or_app. right. apply in_or_app. right. apply in_or_app. right.
    left. reflexivity.
Qed.

End RunFacts.

(** The sample frames are what [fetch_stock_data] returns for such a
    provider. *)
Lemma fetch_stock_data_sample (closes : list Q) :
  closes = [100; 200] \/ closes = [100; 100; 151; 200] ->
  fetch_stock_data (fun _ _ _ => Return (Sample.daily closes))
                   "AAPL" "2024-01-01" "2024-01-31"
  = (Return (Some (Sample.fetched "AAPL" closes)),
     [(INFO, FetchedData "AAPL" "2024-01-01" "2024-01-31")]).
Proof.
  intros [-> | ->]; reflexivity.
Qed.

(** C1, as the code has it.  For the first ticker of a run, the three
    stages before the write return, whatever happened inside them:

    - an exception in the [try] block of [fetch_stock_data], a failure of
      the provider among them, is caught and logged as an error, and the
      stage returns [None];
    - [validate_data] returns [None] with a warning when it is given
      [None] or an empty frame, and an exception in its [try] block is
      caught and logged as an error, and the stage returns [None];
    - [process_data] does the same with an exception of the
      normalization;
    - when the stages leave [None], [store_data] writes nothing: it warns
      and leaves the connection as it was.

    When the write of the ticker returns, [run_pipeline] goes on with the
    tickers after it.  When the write raises, the exception is a database
    error that [store_data] has logged and raised again, and
    [run_pipeline] raises it to its caller at once: the tickers after it
    are not processed. *)
Theorem run_pipeline_stops_at_a_storage_error_only
        (history : string -> string -> string -> outcome IndexedFrame)
        (driver : OracleDB.Driver)
        (ticker : string) (rest : list string) (start_date end_date : string)
        (c : OracleDB.Connection) :
  exists raw lf validated lv processed lp,
    fetch_stock_data history ticker start_date end_date = (Return raw, lf) /\
    validate_data raw = (Return validated, lv) /\
    process_data validated = (Return processed, lp) /\
    match history ticker start_date end_date with
    | Raise x =>
        lf = [(ERROR, ErrorFetching ticker x)] /\
        store_data driver processed c = (Return tt, c, [(WARNING, NoDataToStore)])
    | Return _ => True
    end /\
    match fetch_body history ticker start_date end_date with
    | (Raise x, l) => raw = None /\ lf = l ++ [(ERROR, ErrorFetching ticker x)]
    | (Return r, l) => raw = r /\ lf = l
    end /\
    match raw with
    | None => validated = None /\ lv = [(WARNING, NoDataToValidate)]
    | Some d =>
        if empty d
        then validated = None /\ lv = [(WARNING, NoDataToValidate)]
        else match validate_body d with
             | (Raise x, l) =>
                 validated = None /\ lv = l ++ [(ERROR, ErrorValidating x)]
             | (Return r, l) => validated = r /\ lv = l
             end
    end /\
    match validated with
    | None => processed = None /\ lp = [(WARNING, NoDataToProcess)]
    | Some d =>
        if empty d
        then processed = None /\ lp = [(WARNING, NoDataToProcess)]
        else match process_body d with
             | (Raise x, l) =>
                 processed = None /\ lp = l ++ [(ERROR, ErrorProcessing x)]
             | (Return r, l) => processed = r /\ lp = l
             end
    end /\
    match processed with
    | None =>
        store_data driver processed c = (Return tt, c, [(WARNING, NoDataToStore)])
    | Some _ => True
    end /\
    match store_data driver processed c with
    | (Return _, c1, ls) =>
        run_pipeline history driver (ticker :: rest) start_date end_date c
        = (let '(o, c2, l2) :=
             run_pipeline history driver rest start_date end_date c1 in
           (o, c2, ((INFO, StartingPipeline ticker) :: lf ++ lv ++ lp ++ ls) ++ l2))
    | (Raise x, c1, ls) =>
        is_oracledb_Error x = true /\
        ls = [(ERROR, ErrorStoring x)] /\
        run_pipeline history driver (ticker :: rest) start_date end_date c
        = (Raise x, c1, (INFO, StartingPipeline ticker) :: lf ++ lv ++ lp ++ ls)
    end.
Proof.
  destruct (fetch_stock_data_returns history ticker start_date end_date)
    as (raw & lf & Hf).
  destruct (validate_data_returns raw) as (validated & lv & Hv).
  destruct (process_data_returns validated) as (processed & lp & Hp).
  exists raw, lf, validated, lv, processed, lp.
  split; [exact Hf |]. split; [exact Hv |]. split; [exact Hp |].
  split; [| split; [| split; [| split; [| split]]]].
  - destruct (history ticker start_date end_date) as [f | x] eqn:Hh; [exact I |].
    rewrite (fetch_stock_data_failure history _ _ _ x Hh) in Hf.
    inversion Hf. subst raw lf. cbn in Hv. inversion Hv. subst validated lv.
    cbn in Hp. inversion Hp. subst processed lp. split; reflexivity.
  - rewrite fetch_stock_data_cases in Hf.
    destruct (fetch_body history ticker start_date end_date) as [[r | x] l];
      inversion Hf; auto.
  - rewrite validate_data_cases in Hv.
    destruct raw as [d |]; [| inversion Hv; auto].
    destruct (empty d); [inversion Hv; auto |].
    destruct (validate_body d) as [[r | x] l]; inversion Hv; auto.
  - rewrite process_data_cases in Hp.
    destruct validated as [d |]; [| inversion Hp; auto].
    destruct (empty d); [inversion Hp; auto |].
    destruct (process_body d) as [[r | x] l]; inversion Hp; auto.
  - destruct processed; [exact I | reflexivity].
  - rewrite run_pipeline_cons.
    rewrite (run_ticker_stages history driver _ _ _ c _ _ _ _ _ _ Hf Hv Hp).
    destruct (store_data driver processed c) as [[[u | x] c1] ls] eqn:Hs.
    + reflexivity.
    + apply store_data_Raise in Hs. destruct Hs as (Ho & Hl & _).
      split; [exact Ho |]. split; [exact Hl | reflexivity].
Qed.

(** C1, as the specification has it, fails.  A run over AAPL, AAPL and
    MSFT: the second write of AAPL is refused by the primary key
    (ORA-00001), the exception leaves [run_pipeline], and MSFT is never
    started nor stored. *)
Lemma storage_error_aborts_the_batch :
  let run :=
    run_pipeline Sample.provider (Sample.driver true) ["AAPL"; "AAPL"; "MSFT"]
                 "2024-01-01" "2024-01-31" Sample.fresh in
  outcome_of run = Raise (OracleError 1) /\
  started (log_of run) = ["AAPL"; "AAPL"] /\
  map OracleDB.ticker (OracleDB.committed_rows (connection_after run))
  = [Some "AAPL"; Some "AAPL"].
Proof.
  repeat split; vm_compute; reflexivity.
Qed.

(** C9, as the code has it.  [run_pipeline] hands its caller [None] and
    nothing else: when it returns, the value is [tt] and every ticker of
    the sequence was started, in order; when it raises, the exception is a
    database error that [store_data] logged, and the tickers started are
    those up to the one whose write failed.  It counts neither tickers nor
    records. *)
Theorem run_pipeline_returns_none
        (history : string -> string -> string -> outcome IndexedFrame)
        (driver : OracleDB.Driver)
        (tickers : list string) (start_date end_date : string)
        (c : OracleDB.Connection) :
  match run_pipeline history driver tickers start_date end_date c with
  | (Return v, _, l) => v = tt /\ started l = tickers
  | (Raise x, _, l) =>
      is_oracledb_Error x = true /\
      In (ERROR, ErrorStoring x) l /\
      exists before ticker after,
        tickers = before ++ ticker :: after /\ started l = before ++ [ticker]
  end.
Proof.
  revert c. induction tickers as [| t rest IH]; intros c.
  - cbn. auto.
  - rewrite run_pipeline_cons.
    destruct (started_run_ticker history driver t start_date end_date c)
      as [Hst Hraise].
    destruct (run_ticker history driver t start_date end_date c)
      as [[[u | x] c1] l1].
    + unfold log_of in Hst. cbn [snd] in Hst. specialize (IH c1).
      destruct (run_pipeline history driver rest start_date end_date c1)
        as [[[v | x] c2] l2].
      * destruct IH as [Hv Hl]. split; [exact Hv |].
        rewrite started_app, Hst, Hl. reflexivity.
      * destruct IH as (Ho & Hin & before & t' & after & Ht & Hl).
        split; [exact Ho |]. split; [apply in_or_app; right; exact Hin |].
        exists (t :: before), t', after. rewrite started_app, Hst, Hl, Ht.
        split; reflexivity.
    + unfold log_of, outcome_of in Hst, Hraise. cbn [fst snd] in Hst, Hraise.
      destruct (Hraise x eq_refl) as [Ho Hin].
      split; [exact Ho |]. split; [exact Hin |].
      exists [], t, rest. split; [reflexivity | exact Hst].
Qed.

(** C9, as the specification has it, fails: no reading of the value that
    [run_pipeline] returns gives the number of records stored, for a run
    over no ticker and a run over AAPL return the same value, and the
    first stores nothing, the second two records. *)
Lemma run_pipeline_reports_no_summary :
  ~ exists summary_of : unit -> RunSummary,
      forall tickers c v c' l,
        run_pipeline Sample.provider (Sample.driver true) tickers
                     "2024-01-01" "2024-01-31" c = (Return v, c', l) ->
        stored (summary_of v) = records_added c c'.
Proof.
  intros [summary_of H].
  pose proof (H [] Sample.fresh tt _ _ eq_refl) as H0.
  assert (H2 : stored (summary_of tt)
               = records_added
                   Sample.fresh
                   (connection_after
                      (run_pipeline Sample.provider (Sample.driver true) ["AAPL"]
                                    "2024-01-01" "2024-01-31" Sample.fresh))).
  { eapply (H ["AAPL"]). vm_compute. reflexivity. }
  vm_compute in H0. vm_compute in H2. congruence.
Qed.

(** A ticker that the provider does not know is logged and skipped, and
    the run goes on: the two records of MSFT are stored. *)
Lemma unknown_ticker_does_not_stop_the_run :
  let run :=
    run_pipeline Sample.provider (Sample.driver true) ["UNKNOWN"; "MSFT"]
                 "2024-01-01" "2024-01-31" Sample.fresh in
  outcome_of run = Return tt /\
  started (log_of run) = ["UNKNOWN"; "MSFT"] /\
  In (ERROR,
      ErrorFetching "UNKNOWN"
                    (ProviderError "no data found, symbol may be delisted"))
     (log_of run) /\
  map OracleDB.ticker (OracleDB.committed_rows (connection_after run))
  = [Some "MSFT"; Some "MSFT"].
Proof.
  split; [vm_compute; reflexivity |]. split; [vm_compute; reflexivity |].
  split; [| vm_compute; reflexivity].
  vm_compute. right. left. reflexivity.
Qed.

(* ===================================================================== *)
(** * More about the stages *)
(* ===================================================================== *)

(** X1.  When the provider answers a ticker with a frame (whose index
    name is not one of its columns), [fetch_stock_data] returns a frame
    with as many rows as the provider gave, with a Ticker column, and with
    the ticker in the Ticker cell of every row; it logs one INFO record. *)
Theorem fetch_stock_data_tags_every_row
        (history : string -> string -> string -> outcome IndexedFrame)
        (ticker start_date end_date : string) (f : IndexedFrame) :
  history ticker start_date end_date = Return f ->
  existsb (String.eqb (index_name f)) (labels f) = false ->
  exists d,
    fetch_stock_data history ticker start_date end_date
    = (Return (Some d), [(INFO, FetchedData ticker start_date end_date)]) /\
    List.length (rows d) = List.length (indexed_rows f) /\
    has_column "Ticker" d = true /\
    forall r, In r (rows d) -> at_ r "Ticker" = Str ticker.
Proof.
  intros Hh Hn. unfold fetch_stock_data, fetch_body. rewrite Hh.
  cbn [lift_outcome bind ret PyMonad_Logged]. unfold reset_index. rewrite Hn.
  eexists. split; [reflexivity |].
  unfold setitem_scalar. cbn [rows columns]. split; [| split].
  - rewrite !length_map. reflexivity.
  - unfold has_column. cbn [columns]. apply has_column_add_label.
  - intros r Hr. apply in_map_iff in Hr. destruct Hr as (r0 & <- & _).
    apply at_upd_same.
Qed.

Lemma fetch_stock_data_tags_every_row_witness :
  exists d,
    fetch_stock_data Sample.provider "MSFT" "2024-01-01" "2024-01-31"
    = (Return (Some d), [(INFO, FetchedData "MSFT" "2024-01-01" "2024-01-31")]) /\
    List.length (rows d) = List.length (indexed_rows (Sample.daily [100; 110])) /\
    has_column "Ticker" d = true /\
    forall r, In r (rows d) -> at_ r "Ticker" = Str "MSFT".
Proof.
  apply (fetch_stock_data_tags_every_row
           Sample.provider "MSFT" "2024-01-01" "2024-01-31"
           (Sample.daily [100; 110])); reflexivity.
Defined.

Section ValidateFacts.

Lemma first_missing_None (cs : list string) (d : DataFrame) (c : string) :
  first_missing cs d = None -> In c cs -> In c (columns d).
Proof.
  unfold first_missing. intros H Hin.
  pose proof (find_none _ _ H c Hin) as Hc. apply negb_false_iff in Hc.
  unfold has_column in Hc. apply existsb_exists in Hc.
  destruct Hc as (k & Hk & He). apply String.eqb_eq in He. subst. exact Hk.
Qed.

Lemma has_column_In (c : string) (d : DataFrame) :
  In c (columns d) -> has_column c d = true.
Proof.
  intros H. unfold has_column. apply existsb_exists. exists c.
  split; [exact H | apply String.eqb_refl].
Qed.

Lemma at_upd_other (c c' : string) (v : Cell) (r : Row) :
  c <> c' -> at_ (upd c v r) c' = at_ r c'.
Proof.
  intros Hne. unfold at_. induction r as [| [k x] r IH]; cbn.
  - destruct (String.eqb c c') eqn:E; [| reflexivity].
    apply String.eqb_eq in E. contradiction.
  - destruct (String.eqb k c) eqn:Ekc; cbn.
    + apply String.eqb_eq in Ekc. subst k.
      destruct (String.eqb c c') eqn:E; [| reflexivity].
      apply String.eqb_eq in E. contradiction.
    + destruct (String.eqb k c'); [reflexivity | exact IH].
Qed.

Lemma row_has_null_upd (cs : list string) (c : string) (v : Cell) (r : Row) :
  ~ In c cs -> row_has_null cs (upd c v r) = row_has_null cs r.
Proof.
  intros Hn. unfold row_has_null. apply existsb_ext_in. intros k Hk.
  rewrite at_upd_other; [reflexivity |]. intros ->. contradiction.
Qed.

Lemma row_has_null_subset (cs cs' : list string) (r : Row) :
  incl cs cs' -> row_has_null cs' r = false -> row_has_null cs r = false.
Proof.
  unfold row_has_null. intros Hi H.
  destruct (existsb (fun c => isnull (at_ r c)) cs) eqn:E; [| reflexivity].
  apply existsb_exists in E. destruct E as (c & Hc & Hnull).
  assert (existsb (fun c => isnull (at_ r c)) cs' = true)
    by (apply existsb_exists; exists c; auto).
  congruence.
Qed.

Lemma in_assigned (c : string) (rs : list Row) (vs : list Cell) (r : Row) :
  In r (assigned c rs vs) -> exists r0 v, In r0 rs /\ r = upd c v r0.
Proof.
  unfold assigned. intros H. apply in_map_iff in H.
  destruct H as ([r0 v] & <- & Hin). apply in_combine_l in Hin.
  exists r0, v. auto.
Qed.

Lemma length_assigned (c : string) (rs : list Row) (vs : list Cell) :
  List.length vs = List.length rs ->
  List.length (assigned c rs vs) = List.length rs.
Proof.
  intros H. unfold assigned. rewrite length_map, length_combine, H.
  apply Nat.min_id.
Qed.

Lemma length_masked {A : Type} (xs : list A) (mask : list bool) :
  (List.length (map fst (filter snd (combine xs mask))) <= List.length xs)%nat.
Proof.
  rewrite length_map.
  pose proof (filter_length_le snd (combine xs mask)) as H.
  rewrite length_combine in H. lia.
Qed.

Lemma none_selected {A : Type} (g : A -> bool) (rs : list Row) (xs : list A) :
  forallb (fun x => negb (g x)) xs = true ->
  map fst (filter snd (combine rs (map g xs))) = [].
Proof.
  revert rs. induction xs as [| x xs IH]; intros [| r rs]; cbn; auto.
  intros H. apply andb_true_iff in H. destruct H as [Hx H].
  apply negb_true_iff in Hx. rewrite Hx. cbn. auto.
Qed.

(** What the completeness rule returns, when it returns. *)
Lemma drop_incomplete_result (raw d : DataFrame) (l : list LogRecord) :
  drop_incomplete raw = (Return d, l) ->
  first_missing price_columns raw = None /\
  columns d = columns raw /\
  rows d = (if existsb (row_has_null price_columns) (rows raw)
            then rows_without_null raw
            else rows raw).
Proof.
  unfold drop_incomplete. intros H.
  apply Logged_bind_Return in H. destruct H as (p & l1 & l2 & Hs & Hk & _).
  apply lift_outcome_Return in Hs. destruct Hs as [Hs _].
  assert (Hm : first_missing price_columns raw = None).
  { unfold select in Hs. destruct (first_missing price_columns raw);
      [discriminate | reflexivity]. }
  apply isnull_any_any_select in Hs. destruct Hs as [_ Hs].
  rewrite Hs in Hk.
  destruct (existsb (row_has_null price_columns) (rows raw));
    cbn in Hk; inversion Hk; subst; repeat split; auto.
Qed.

(** The completeness rule, run forward on a frame with no null among the
    five price fields. *)
Lemma drop_incomplete_complete (d : DataFrame) :
  first_missing price_columns d = None ->
  existsb (row_has_null price_columns) (rows d) = false ->
  drop_incomplete d = (Return d, []).
Proof.
  intros Hm Hn. unfold drop_incomplete.
  destruct (select price_columns d) as [p | e] eqn:Hs.
  - destruct (isnull_any_any_select _ _ _ Hs) as [_ Hp].
    cbn [lift_outcome bind ret PyMonad_Logged]. rewrite Hp, Hn. reflexivity.
  - unfold select in Hs. rewrite Hm in Hs. discriminate.
Qed.





(** In [Sample.missing_open] the rule removes the day without an Open and
    keeps the other. *)
Lemma completeness_rule_on_a_missing_open :
  drop_incomplete Sample.missing_open
  = (Return (mkFrame (columns Sample.missing_open)
                     [("Date", Sample.january 3) :: Sample.flat 101
                                                 ++ [("Ticker", Str "AAPL")]]),
     [(WARNING, MissingValuesDetected)]).
Proof.
  vm_compute. reflexivity.
Qed.

Lemma setitem_same_length (c : string) (vs : list Cell) (d : DataFrame) :
  List.length vs = List.length (rows d) ->
  setitem c vs d
  = Return (mkFrame (add_label c (columns d)) (assigned c (rows d) vs)).
Proof.
  intros H. unfold setitem. rewrite H, Nat.eqb_refl. reflexivity.
Qed.

Lemma length_changes_of_closes (d : DataFrame) (closes : list Float64.t) :
  close_prices d = Return closes ->
  List.length (map Float (pct_change_floats closes)) = List.length (rows d).
Proof.
  intros H. unfold close_prices in H. apply traverse_to_float_length in H.
  rewrite length_map, length_pct_change_floats, H, length_map. reflexivity.
Qed.

(** The outlier filter, run forward on a series in which no change exceeds
    the threshold: every row is kept. *)
Lemma drop_extreme_quiet (d : DataFrame) (closes : list Float64.t) :
  In "Close" (columns d) ->
  close_prices d = Return closes ->
  forallb (fun x => negb (exceeds x)) (pct_change_floats closes) = true ->
  drop_extreme d
  = (Return (mkFrame (add_label "PriceChange" (columns d))
                     (assigned "PriceChange" (rows d)
                               (map Float (pct_change_floats closes)))),
     []).
Proof.
  intros Hc Hcl Hq.
  pose proof (setitem_same_length "PriceChange" _ d
                (length_changes_of_closes d closes Hcl)) as Hset.
  unfold drop_extreme, getitem. rewrite (has_column_In _ _ Hc).
  cbn [lift_outcome bind ret PyMonad_Logged]. unfold pct_change.
  unfold close_prices in Hcl. rewrite Hcl. cbn [obind].
  cbn [lift_outcome bind ret PyMonad_Logged]. rewrite Hset.
  cbn [lift_outcome bind ret PyMonad_Logged].
  rewrite (exceeds_mask_assigned _ _ _ Hset).
  cbn [lift_outcome bind ret PyMonad_Logged].
  unfold loc, empty. cbn [columns rows].
  rewrite (none_selected exceeds _ _ Hq).
  destruct (add_label "PriceChange" (columns d)); reflexivity.
Qed.

(** The rows that the outlier filter returns: all the rows it measured,
    or those of them that a mask selects. *)
Lemma drop_extreme_rows (d v : DataFrame) (l : list LogRecord) :
  drop_extreme d = (Return v, l) ->
  exists vs,
    List.length vs = List.length (rows d) /\
    (rows v = assigned "PriceChange" (rows d) vs \/
     exists mask,
       rows v
       = map fst (filter snd (combine (assigned "PriceChange" (rows d) vs) mask))).
Proof.
  unfold drop_extreme. intros H.
  apply Logged_bind_Return in H. destruct H as (close & ? & ? & _ & H & _).
  apply Logged_bind_Return in H. destruct H as (change & ? & ? & _ & H & _).
  apply Logged_bind_Return in H. destruct H as (m & ? & ? & Hm & H & _).
  apply lift_outcome_Return in Hm. destruct Hm as [Hm _].
  apply Logged_bind_Return in H. destruct H as (mask & ? & ? & _ & H & _).
  destruct (setitem_Return _ _ _ _ Hm) as (Hlen & _ & Hrows).
  exists change. split; [exact Hlen |].
  destruct (negb (empty (loc mask m))).
  - apply Logged_bind_Return in H. destruct H as (shown & ? & ? & _ & H & _).
    apply Logged_bind_Return in H. destruct H as (? & ? & ? & _ & H & _).
    apply Logged_bind_Return in H. destruct H as (within & ? & ? & _ & H & _).
    cbn in H. inversion H. subst v. right. exists within.
    cbn [rows loc]. rewrite Hrows. reflexivity.
  - cbn in H. inversion H. subst v. left. exact Hrows.
Qed.

End ValidateFacts.

Lemma in_masked {A : Type} (xs : list A) (mask : list bool) (x : A) :
  In x (map fst (filter snd (combine xs mask))) -> In x xs.
Proof.
  intros H. apply in_map_iff in H. destruct H as ([y b] & <- & Hin).
  apply filter_In in Hin. destruct Hin as [Hin _].
  apply in_combine_l in Hin. exact Hin.
Qed.

(** The two steps behind a frame that [validate_data] returns. *)
Lemma validate_data_Some (raw v : DataFrame) (l : list LogRecord) :
  validate_data (Some raw) = (Return (Some v), l) ->
  exists complete lc le,
    drop_incomplete raw = (Return complete, lc) /\
    drop_extreme complete = (Return v, le).
Proof.
  unfold validate_data. destruct (empty raw); [cbn; discriminate |].
  intros H. apply try_except_Some in H; [| intros e; cbn; eauto].
  unfold validate_body in H.
  apply Logged_bind_Return in H. destruct H as (complete & lc & ? & Hi & H & _).
  apply Logged_bind_Return in H. destruct H as (kept & le & ? & He & H & _).
  cbn in H. inversion H. subst kept. eauto.
Qed.

(** Every row that [validate_data] returns is a row of its input with a
    PriceChange cell set. *)
Lemma validated_row_origin (raw v : DataFrame) (l : list LogRecord) (r : Row) :
  validate_data (Some raw) = (Return (Some v), l) ->
  In r (rows v) ->
  exists complete lc r0 x,
    drop_incomplete raw = (Return complete, lc) /\
    In r0 (rows complete) /\ r = upd "PriceChange" x r0.
Proof.
  intros H Hr.
  destruct (validate_data_Some _ _ _ H) as (complete & lc & le & Hi & He).
  destruct (drop_extreme_rows _ _ _ He) as (vs & _ & [Hall | [mask Hsel]]).
  - rewrite Hall in Hr. apply in_assigned in Hr.
    destruct Hr as (r0 & x & Hin & ->). exists complete, lc, r0, x. auto.
  - rewrite Hsel in Hr. apply in_masked, in_assigned in Hr.
    destruct Hr as (r0 & x & Hin & ->). exists complete, lc, r0, x. auto.
Qed.

(** X2.  A frame that is not empty, has the five price columns with no
    null in them and a numeric Close column, and in which no
    day-over-day change of the close exceeds the threshold, passes
    [validate_data] whole: every row is returned, in order, with its
    change in a new PriceChange column, and only the completion is
    logged. *)
Theorem validate_data_keeps_a_clean_series_whole
        (d : DataFrame) (closes : list Float64.t) :
  empty d = false ->
  first_missing price_columns d = None ->
  existsb (row_has_null price_columns) (rows d) = false ->
  close_prices d = Return closes ->
  forallb (fun x => negb (exceeds x)) (pct_change_floats closes) = true ->
  validate_data (Some d)
  = (Return (Some (mkFrame (add_label "PriceChange" (columns d))
                           (assigned "PriceChange" (rows d)
                                     (map Float (pct_change_floats closes))))),
     [(INFO, ValidationCompleted)]) /\
  List.length (assigned "PriceChange" (rows d)
                        (map Float (pct_change_floats closes)))
  = List.length (rows d).
Proof.
  intros He Hm Hn Hcl Hq. split.
  - unfold validate_data. rewrite He. unfold validate_body.
    rewrite (drop_incomplete_complete d Hm Hn).
    cbn [bind PyMonad_Logged].
    rewrite (drop_extreme_quiet d closes); [reflexivity | | exact Hcl | exact Hq].
    apply (first_missing_None price_columns d "Close" Hm).
    cbn. tauto.
  - apply length_assigned. exact (length_changes_of_closes d closes Hcl).
Qed.

Lemma validate_data_keeps_a_clean_series_whole_witness :
  validate_data (Some (Sample.fetched "AAPL" [100; 110]))
  = (Return
       (Some (mkFrame (add_label "PriceChange"
                                 (columns (Sample.fetched "AAPL" [100; 110])))
                      (assigned "PriceChange"
                                (rows (Sample.fetched "AAPL" [100; 110]))
                                (map Float
                                     (pct_change_floats
                                        [Float64.Fin 100; Float64.Fin 110]))))),
     [(INFO, ValidationCompleted)]) /\
  List.length (assigned "PriceChange"
                        (rows (Sample.fetched "AAPL" [100; 110]))
                        (map Float
                             (pct_change_floats
                                [Float64.Fin 100; Float64.Fin 110])))
  = List.length (rows (Sample.fetched "AAPL" [100; 110])).
Proof.
  apply (validate_data_keeps_a_clean_series_whole
           (Sample.fetched "AAPL" [100; 110])
           [Float64.Fin 100; Float64.Fin 110]); reflexivity.
Defined.

(** X3.  No row that [validate_data] returns has a null among Open,
    High, Low, Close and Volume. *)
Theorem validated_rows_have_all_prices
        (raw v : DataFrame) (l : list LogRecord) (r : Row) :
  validate_data (Some raw) = (Return (Some v), l) ->
  In r (rows v) ->
  row_has_null price_columns r = false.
Proof.
  intros H Hr.
  destruct (validated_row_origin _ _ _ _ H Hr)
    as (complete & lc & r0 & x & Hi & Hin & ->).
  rewrite row_has_null_upd; [| cbn; intuition discriminate].
  destruct (drop_incomplete_result _ _ _ Hi) as (Hm & _ & Hrows).
  rewrite Hrows in Hin.
  destruct (existsb (row_has_null price_columns) (rows raw)) eqn:Hex.
  - unfold rows_without_null in Hin. apply filter_In in Hin.
    destruct Hin as [_ Hn]. apply negb_true_iff in Hn.
    apply (row_has_null_subset price_columns (columns raw)); [| exact Hn].
    intros c Hc. exact (first_missing_None _ _ _ Hm Hc).
  - destruct (row_has_null price_columns r0) eqn:E; [| reflexivity].
    assert (existsb (row_has_null price_columns) (rows raw) = true)
      by (apply existsb_exists; eauto).
    congruence.
Qed.

Lemma validated_rows_have_all_prices_witness :
  exists v l,
    validate_data (Some Sample.gap) = (Return (Some v), l) /\
    forall r, In r (rows v) -> row_has_null price_columns r = false.
Proof.
  eexists. eexists. split; [vm_compute; reflexivity |].
  intros r Hr.
  eapply (validated_rows_have_all_prices Sample.gap);
    [vm_compute; reflexivity | exact Hr].
Defined.

(** X4.  [validate_data] excludes rows and corrects none: it returns no
    more rows than it was given, and every row it returns agrees with a
    row of its input in every column but PriceChange, the one it adds. *)
Theorem validate_data_excludes_and_never_corrects
        (raw v : DataFrame) (l : list LogRecord) :
  validate_data (Some raw) = (Return (Some v), l) ->
  (List.length (rows v) <= List.length (rows raw))%nat /\
  forall r, In r (rows v) ->
            exists r0, In r0 (rows raw) /\
                       forall c, c <> "PriceChange" -> at_ r c = at_ r0 c.
Proof.
  intros H. split.
  - destruct (validate_data_Some _ _ _ H) as (complete & lc & le & Hi & He).
    destruct (drop_incomplete_result _ _ _ Hi) as (_ & _ & Hrows).
    assert (Hc : (List.length (rows complete) <= List.length (rows raw))%nat).
    { rewrite Hrows.
      destruct (existsb (row_has_null price_columns) (rows raw)); [| lia].
      apply filter_length_le. }
    destruct (drop_extreme_rows _ _ _ He) as (vs & Hlen & [Hall | [mask Hsel]]).
    + rewrite Hall, (length_assigned _ _ _ Hlen). exact Hc.
    + rewrite Hsel.
      pose proof (length_masked (assigned "PriceChange" (rows complete) vs) mask).
      rewrite (length_assigned _ _ _ Hlen) in *. lia.
  - intros r Hr.
    destruct (validated_row_origin _ _ _ _ H Hr)
      as (complete & lc & r0 & x & Hi & Hin & ->).
    exists r0. split.
    + destruct (drop_incomplete_result _ _ _ Hi) as (_ & _ & Hrows).
      rewrite Hrows in Hin.
      destruct (existsb (row_has_null price_columns) (rows raw)); [| exact Hin].
      unfold rows_without_null in Hin. apply filter_In in Hin. tauto.
    + intros c Hc. apply at_upd_other. congruence.
Qed.

Lemma validate_data_excludes_and_never_corrects_witness :
  exists v l,
    validate_data (Some Sample.gap) = (Return (Some v), l) /\
    (List.length (rows v) <= List.length (rows Sample.gap))%nat.
Proof.
  eexists. eexists. split; [vm_compute; reflexivity |].
  eapply (validate_data_excludes_and_never_corrects Sample.gap).
  vm_compute. reflexivity.
Defined.

(* ===================================================================== *)
(** * The records handed to the INSERT *)
(* ===================================================================== *)

Lemma digit_inj (n n' : Z) :
  digit n = digit n' -> (n mod 10 = n' mod 10)%Z.
Proof.
  unfold digit. intros H. inversion H as [Ha]. clear H.
  assert (Hb : forall z : Z, (48 + Z.to_nat (z mod 10) < 256)%nat).
  { intros z. pose proof (Z.mod_pos_bound z 10 ltac:(lia)). lia. }
  apply (f_equal nat_of_ascii) in Ha.
  rewrite !nat_ascii_embedding in Ha by apply Hb.
  pose proof (Z.mod_pos_bound n 10 ltac:(lia)).
  pose proof (Z.mod_pos_bound n' 10 ltac:(lia)).
  lia.
Qed.

Lemma digit_append_inj (n n' : Z) (s s' : string) :
  (digit n ++ s)%string = (digit n' ++ s')%string ->
  (n mod 10 = n' mod 10)%Z /\ s = s'.
Proof.
  unfold digit. cbn [append]. intros H. inversion H as [[Ha Hs]].
  split; [| reflexivity]. apply digit_inj. unfold digit.
  f_equal. exact Ha.
Qed.

Lemma dash_append_inj (s s' : string) :
  ("-" ++ s)%string = ("-" ++ s')%string -> s = s'.
Proof.
  cbn [append]. intros H. injection H as H. exact H.
Qed.

Lemma date_string_inj (a b c e f g h i a' b' c' e' f' g' h' i' : Z) :
  (digit a ++ digit b ++ digit c ++ digit e ++ "-"
   ++ digit f ++ digit g ++ "-" ++ digit h ++ digit i)%string
  = (digit a' ++ digit b' ++ digit c' ++ digit e' ++ "-"
     ++ digit f' ++ digit g' ++ "-" ++ digit h' ++ digit i')%string ->
  (a mod 10 = a' mod 10 /\ b mod 10 = b' mod 10 /\ c mod 10 = c' mod 10 /\
   e mod 10 = e' mod 10 /\ f mod 10 = f' mod 10 /\ g mod 10 = g' mod 10 /\
   h mod 10 = h' mod 10 /\ i mod 10 = i' mod 10)%Z.
Proof.
  intros H.
  apply digit_append_inj in H. destruct H as [Ea H].
  apply digit_append_inj in H. destruct H as [Eb H].
  apply digit_append_inj in H. destruct H as [Ec H].
  apply digit_append_inj in H. destruct H as [Ee H].
  apply dash_append_inj in H.
  apply digit_append_inj in H. destruct H as [Ef H].
  apply digit_append_inj in H. destruct H as [Eg H].
  apply dash_append_inj in H.
  apply digit_append_inj in H. destruct H as [Eh H].
  apply digit_inj in H. tauto.
Qed.

(** X6.  The stock_date that [process_data] formats from a date has ten
    characters, so it fits the VARCHAR2(10) column; and two days (years
    of at most four digits) that are not the same day are never given
    the same stock_date. *)
Theorem stock_date_has_ten_characters_and_tells_days_apart
        (y m d y' m' d' : Z) :
  (exists s, strftime_Ymd (Timestamp y m d) = Str s /\ String.length s = 10%nat) /\
  ((0 <= y < 10000)%Z -> (0 <= m < 100)%Z -> (0 <= d < 100)%Z ->
   (0 <= y' < 10000)%Z -> (0 <= m' < 100)%Z -> (0 <= d' < 100)%Z ->
   strftime_Ymd (Timestamp y m d) = strftime_Ymd (Timestamp y' m' d') ->
   y = y' /\ m = m' /\ d = d').
Proof.
  split.
  - eexists. split; reflexivity.
  - intros Hy Hm Hd Hy' Hm' Hd' H.
    assert (Hs := f_equal (fun c => match c with
                                    | Str s => s
                                    | _ => ""%string
                                    end) H).
    cbv beta iota delta [strftime_Ymd] in Hs. clear H.
    pose proof (date_string_inj (y / 1000) (y / 100) (y / 10) y
                                (m / 10) m (d / 10) d
                                (y' / 1000) (y' / 100) (y' / 10) y'
                                (m' / 10) m' (d' / 10) d' Hs)
      as (E1 & E2 & E3 & E4 & E5 & E6 & E7 & E8).
    clear Hs. Z.div_mod_to_equations. lia.
Qed.

Lemma stock_date_has_ten_characters_and_tells_days_apart_witness :
  (exists s, strftime_Ymd (Timestamp 2024 1 2) = Str s /\
             String.length s = 10%nat) /\
  (2024 = 2024 /\ 1 = 1 /\ 2 = 2)%Z.
Proof.
  destruct (stock_date_has_ten_characters_and_tells_days_apart
              2024 1 2 2024 1 2) as [H1 H2].
  split; [exact H1 |]. apply H2; try lia. reflexivity.
Defined.

(** A frame that [process_data] returns is the projection [normalized]
    of its input. *)
Lemma process_data_Some (d out : DataFrame) (l : list LogRecord) :
  process_data (Some d) = (Return (Some out), l) -> out = normalized d.
Proof.
  unfold process_data. destruct (empty d); [cbn; discriminate |].
  rewrite process_body_normalizes.
  destruct (first_missing processed_columns d); [cbn; discriminate |].
  destruct (forallb is_datetimelike (date_column d)); cbn; [| discriminate].
  intros H. inversion H. reflexivity.
Qed.

(** X7.  The tuples that [store_data] makes of a frame returned by
    [process_data] have, for each input row in order, the seven values
    of the INSERT's placeholders in their order: the formatted date, the
    ticker, open, high, low, close and volume of that row; the frame's
    columns are the seven canonical names in that order. *)
Theorem processed_tuples_follow_the_insert
        (d out : DataFrame) (l : list LogRecord) :
  process_data (Some d) = (Return (Some out), l) ->
  columns out
  = ["stock_date"; "ticker"; "open"; "high"; "low"; "close"; "volume"] /\
  to_numpy out = map record_tuple (rows d).
Proof.
  intros H. apply process_data_Some in H. subst out. split; [reflexivity |].
  unfold to_numpy, normalized. cbn [columns rows]. rewrite map_map.
  apply map_ext. intros r. reflexivity.
Qed.

Lemma processed_tuples_follow_the_insert_witness :
  exists out l,
    process_data (Some (Sample.fetched "AAPL" [100; 110]))
    = (Return (Some out), l) /\
    to_numpy out = map record_tuple (rows (Sample.fetched "AAPL" [100; 110])).
Proof.
  eexists. eexists. split; [vm_compute; reflexivity |].
  eapply (processed_tuples_follow_the_insert
            (Sample.fetched "AAPL" [100; 110])).
  vm_compute. reflexivity.
Defined.

(* ===================================================================== *)
(** * More about the writes *)
(* ===================================================================== *)

Section MoreWriteFacts.

Import OracleDB.

Variable driver : Driver.

Lemma primary_key_new_row (xs ys : list DbRow) (r : DbRow) :
  primary_key_holds (xs ++ r :: ys) = true ->
  existsb (same_key r) xs = false.
Proof.
  induction xs as [| a xs IH]; cbn; [reflexivity |].
  intros H. apply andb_true_iff in H. destruct H as [Ha H].
  apply negb_true_iff in Ha. rewrite existsb_app in Ha.
  apply orb_false_iff in Ha. destruct Ha as [_ Ha]. cbn in Ha.
  apply orb_false_iff in Ha. destruct Ha as [Ha _].
  rewrite same_key_sym, Ha. cbn. auto.
Qed.

Lemma acceptable_no_violation (seen : list DbRow) (r : DbRow) :
  acceptable r = true ->
  existsb (same_key r) seen = false ->
  violation seen r = None.
Proof.
  unfold acceptable, violation. intros H Hk.
  apply andb_true_iff in H. destruct H as [H H4].
  apply andb_true_iff in H. destruct H as [H H3].
  apply andb_true_iff in H. destruct H as [H1 H2].
  apply negb_true_iff in H1, H2. rewrite H1, H2, H3, H4, Hk. reflexivity.
Qed.

(** Rows that break no constraint are all inserted. *)
Lemma insert_rows_accepts (rs : list DbRow) (c : Connection) (t : list DbRow) :
  stock_data c = Some t ->
  forallb acceptable rs = true ->
  primary_key_holds (session_rows c ++ rs) = true ->
  insert_rows c rs = (Return tt, mkConn (Some t) (uncommitted c ++ rs)).
Proof.
  revert c. induction rs as [| r rs IH]; intros c Ht Ha Hpk.
  - cbn. rewrite app_nil_r. destruct c as [s u]. cbn in *. subst. reflexivity.
  - cbn in Ha. apply andb_true_iff in Ha. destruct Ha as [Hr Ha].
    cbn [insert_rows]. rewrite Ht.
    rewrite (acceptable_no_violation _ _ Hr (primary_key_new_row _ _ _ Hpk)).
    rewrite (IH (mkConn (Some t) (uncommitted c ++ [r]))); [| reflexivity | exact Ha |].
    + cbn [uncommitted]. rewrite <- app_assoc. reflexivity.
    + rewrite (session_rows_snoc c t r Ht), <- app_assoc. exact Hpk.
Qed.

(** Whatever its outcome, a write leaves the committed rows in place and
    at most appends to them. *)
Lemma store_data_appends (b : option DataFrame) (c : Connection) :
  exists added,
    committed_rows (connection_after (store_data driver b c))
    = committed_rows c ++ added.
Proof.
  destruct (store_data driver b c) as [[[u | e] c'] l] eqn:H;
    unfold connection_after; cbn [fst snd].
  - destruct (match b with None => true | Some d => empty d end) eqn:He.
    + rewrite store_data_empty in H; [| exact He]. inversion H. subst.
      exists []. symmetry. apply app_nil_r.
    + destruct b as [d |]; [| discriminate].
      destruct (store_data_Return _ _ _ _ _ _ He H)
        as (rs & _ & _ & Ht & _).
      exists (uncommitted c ++ rs). unfold committed_rows at 1. rewrite Ht.
      unfold session_rows. symmetry. apply app_assoc.
  - apply store_data_Raise in H. destruct H as (_ & _ & Ht).
    exists []. unfold committed_rows. rewrite Ht. symmetry. apply app_nil_r.
Qed.

End MoreWriteFacts.

(** X8.  [store_data] refuses nothing that the table would take: when the
    table exists, the driver binds every tuple of the frame, each bound
    row has a stock_date and a ticker that are not null and fit in ten
    characters, and no two rows among those the session sees and those of
    the batch share a key, then [store_data] returns, the whole batch is
    committed after the rows the session saw, and success is logged. *)
Theorem store_data_accepts_a_batch_without_violation
        (driver : OracleDB.Driver) (d : DataFrame)
        (c : OracleDB.Connection) (t rs : list OracleDB.DbRow) :
  empty d = false ->
  OracleDB.stock_data c = Some t ->
  OracleDB.bind_all driver (to_numpy d) = inl rs ->
  forallb acceptable rs = true ->
  primary_key_holds (OracleDB.session_rows c ++ rs) = true ->
  store_data driver (Some d) c
  = (Return tt, OracleDB.mkConn (Some (OracleDB.session_rows c ++ rs)) [],
     [(INFO, DataStored)]).
Proof.
  intros He Ht Hb Ha Hpk. rewrite (store_data_nonempty driver d c He).
  unfold OracleDB.executemany. rewrite Hb.
  rewrite (insert_rows_accepts rs c t Ht Ha Hpk).
  unfold OracleDB.commit, OracleDB.session_rows, OracleDB.committed_rows.
  cbn [OracleDB.stock_data OracleDB.uncommitted option_map]. rewrite Ht.
  rewrite app_assoc. reflexivity.
Qed.

Lemma store_data_accepts_a_batch_without_violation_witness :
  store_data (Sample.driver false)
             (Some (normalized (Sample.fetched "MSFT" [100; 110])))
             Sample.earlier_run
  = (Return tt,
     OracleDB.mkConn
       (Some (OracleDB.session_rows Sample.earlier_run
              ++ [OracleDB.mkRow (Some "2024-01-02") (Some "MSFT") (Some 100)
                                 (Some 100) (Some 100) (Some 100) (Some 1000);
                  OracleDB.mkRow (Some "2024-01-03") (Some "MSFT") (Some 110)
                                 (Some 110) (Some 110) (Some 110) (Some 1000)]))
       [],
     [(INFO, DataStored)]).
Proof.
  apply (store_data_accepts_a_batch_without_violation
           (Sample.driver false)
           (normalized (Sample.fetched "MSFT" [100; 110]))
           Sample.earlier_run [Sample.stored_row]); reflexivity.
Defined.

(* ===================================================================== *)
(** * More about run_pipeline *)
(* ===================================================================== *)

Section MoreRunFacts.

Variable history : string -> string -> string -> outcome IndexedFrame.
Variable driver : OracleDB.Driver.

(** An iteration of the loop is, for the connection, the write of the
    frame that the three stages make of the ticker. *)
Lemma run_ticker_is_a_write (ticker start_date end_date : string)
      (c : OracleDB.Connection) :
  exists processed,
    processed_of history start_date end_date ticker = Return processed /\
    connection_after (run_ticker history driver ticker start_date end_date c)
    = connection_after (store_data driver processed c) /\
    outcome_of (run_ticker history driver ticker start_date end_date c)
    = outcome_of (store_data driver processed c).
Proof.
  destruct (fetch_stock_data_returns history ticker start_date end_date)
    as (raw & lf & Hf).
  destruct (validate_data_returns raw) as (validated & lv & Hv).
  destruct (process_data_returns validated) as (processed & lp & Hp).
  exists processed. split.
  - unfold processed_of. rewrite Hf. cbn [fst obind]. rewrite Hv.
    cbn [fst obind]. rewrite Hp. reflexivity.
  - rewrite (run_ticker_stages history driver _ _ _ c _ _ _ _ _ _ Hf Hv Hp).
    destruct (store_data driver processed c) as [[o c'] ls]. split; reflexivity.
Qed.

(** An iteration for a ticker that the provider fails on. *)
Lemma run_ticker_fetch_failure (ticker start_date end_date : string)
      (c : OracleDB.Connection) (x : exn) :
  history ticker start_date end_date = Raise x ->
  run_ticker history driver ticker start_date end_date c
  = (Return tt, c,
     [(INFO, StartingPipeline ticker); (ERROR, ErrorFetching ticker x);
      (WARNING, NoDataToValidate); (WARNING, NoDataToProcess);
      (WARNING, NoDataToStore)]).
Proof.
  intros H.
  rewrite (run_ticker_stages history driver _ _ _ c None None None
             [(ERROR, ErrorFetching ticker x)]
             [(WARNING, NoDataToValidate)] [(WARNING, NoDataToProcess)]);
    [reflexivity | | reflexivity | reflexivity].
  apply fetch_stock_data_failure. exact H.
Qed.

End MoreRunFacts.

(** X9.  Whatever the outcome of a run, [run_pipeline] leaves every row
    that was committed before it in the table, in place: the committed
    rows after the run are those from before with rows appended. *)
Theorem run_pipeline_only_appends
        (history : string -> string -> string -> outcome IndexedFrame)
        (driver : OracleDB.Driver)
        (tickers : list string) (start_date end_date : string)
        (c : OracleDB.Connection) :
  exists added,
    OracleDB.committed_rows
      (connection_after
         (run_pipeline history driver tickers start_date end_date c))
    = OracleDB.committed_rows c ++ added.
Proof.
  revert c. induction tickers as [| t rest IH]; intros c.
  - exists []. cbn. symmetry. apply app_nil_r.
  - rewrite run_pipeline_cons.
    destruct (run_ticker_is_a_write history driver t start_date end_date c)
      as (processed & _ & Hc & _).
    destruct (store_data_appends driver processed c) as [a1 Ha1].
    rewrite <- Hc in Ha1.
    destruct (run_ticker history driver t start_date end_date c)
      as [[[u | x] c1] l1]; unfold connection_after in *; cbn [fst snd] in *.
    + destruct (IH c1) as [a2 Ha2].
      destruct (run_pipeline history driver rest start_date end_date c1)
        as [[o c2] l2]. cbn [fst snd] in *.
      exists (a1 ++ a2). rewrite Ha2, Ha1. symmetry. apply app_assoc.
    + exists a1. exact Ha1.
Qed.

(** X10.  When a run that began with nothing uncommitted returns, nothing
    is uncommitted after it, and the committed table has grown by exactly
    the records that the stages handed to [store_data]: the sum, over the
    tickers, of the rows of the frame that fetch, validation and
    processing make of the ticker (none when that frame is [None] or
    empty). *)
Theorem run_pipeline_stores_every_processed_record
        (history : string -> string -> string -> outcome IndexedFrame)
        (driver : OracleDB.Driver)
        (tickers : list string) (start_date end_date : string)
        (c c' : OracleDB.Connection) (v : unit) (l : list LogRecord) :
  run_pipeline history driver tickers start_date end_date c = (Return v, c', l) ->
  OracleDB.uncommitted c = [] ->
  OracleDB.uncommitted c' = [] /\
  List.length (OracleDB.committed_rows c')
  = (List.length (OracleDB.committed_rows c)
     + list_sum (map (records_of history start_date end_date) tickers))%nat.
Proof.
  revert c l. induction tickers as [| t rest IH]; intros c l H Hu.
  - cbn in H. inversion H. subst. cbn. split; [exact Hu | lia].
  - rewrite run_pipeline_cons in H.
    destruct (run_ticker_is_a_write history driver t start_date end_date c)
      as (processed & Hp & Hc & Ho).
    destruct (run_ticker history driver t start_date end_date c)
      as [[[u | x] c1] l1]; [| discriminate].
    unfold connection_after, outcome_of in Hc, Ho. cbn [fst snd] in Hc, Ho.
    destruct (run_pipeline history driver rest start_date end_date c1)
      as [[o c2] l2] eqn:Hrest.
    inversion H. subst o c2 l. clear H.
    assert (Hstep :
              OracleDB.uncommitted c1 = [] /\
              List.length (OracleDB.committed_rows c1)
              = (List.length (OracleDB.committed_rows c)
                 + records_of history start_date end_date t)%nat).
    { unfold records_of. rewrite Hp.
      destruct (store_data driver processed c) as [[o cs] ls] eqn:Hs.
      cbn [fst snd] in Hc, Ho. subst cs o.
      destruct (match processed with None => true | Some d => empty d end) eqn:He.
      - rewrite store_data_empty in Hs; [| exact He]. inversion Hs. subst c1.
        split; [exact Hu |].
        destruct processed as [d |]; [rewrite He |]; lia.
      - destruct processed as [d |]; [| discriminate]. rewrite He.
        destruct (store_data_Return _ _ _ _ _ _ He Hs)
          as (rs & Hb & _ & Ht & Hun & _).
        split; [exact Hun |].
        unfold OracleDB.committed_rows at 1. rewrite Ht.
        unfold OracleDB.session_rows. rewrite Hu, app_nil_r, length_app.
        apply bind_all_length in Hb. unfold to_numpy in Hb.
        rewrite length_map in Hb. lia. }
    destruct Hstep as [Hu1 Hl1].
    destruct (IH c1 l2 Hrest Hu1) as [Hu2 Hl2].
    split; [exact Hu2 |]. unfold list_sum in *. cbn [map fold_right]. lia.
Qed.

Lemma run_pipeline_stores_every_processed_record_witness :
  exists c' l,
    run_pipeline Sample.provider (Sample.driver true) ["AAPL"; "UNKNOWN"; "MSFT"]
                 "2024-01-01" "2024-01-31" Sample.fresh = (Return tt, c', l) /\
    List.length (OracleDB.committed_rows c') = 4%nat.
Proof.
  eexists. eexists. split; [vm_compute; reflexivity |].
  edestruct (run_pipeline_stores_every_processed_record
               Sample.provider (Sample.driver true)
               ["AAPL"; "UNKNOWN"; "MSFT"] "2024-01-01" "2024-01-31"
               Sample.fresh) as [_ H];
    [vm_compute; reflexivity | reflexivity | exact H].
Defined.

(** X11.  When the provider fails for every ticker of the sequence,
    [run_pipeline] returns, the connection is as it was before the run,
    and the failure of each ticker has been logged as an error. *)
Theorem run_pipeline_survives_a_failing_provider
        (history : string -> string -> string -> outcome IndexedFrame)
        (driver : OracleDB.Driver)
        (tickers : list string) (start_date end_date : string)
        (c : OracleDB.Connection) :
  (forall t, In t tickers -> exists x, history t start_date end_date = Raise x) ->
  exists l,
    run_pipeline history driver tickers start_date end_date c = (Return tt, c, l) /\
    forall t, In t tickers ->
              exists x, history t start_date end_date = Raise x /\
                        In (ERROR, ErrorFetching t x) l.
Proof.
  induction tickers as [| t rest IH]; intros Hf.
  - exists []. split; [reflexivity | contradiction].
  - destruct (Hf t (or_introl eq_refl)) as [x Hx].
    destruct IH as (l & Hrun & Hlog).
    { intros t' Ht'. apply Hf. right. exact Ht'. }
    rewrite run_pipeline_cons.
    rewrite (run_ticker_fetch_failure history driver _ _ _ c x Hx), Hrun.
    eexists. split; [reflexivity |].
    intros t' [<- | Ht'].
    + exists x. split; [exact Hx |]. right. left. reflexivity.
    + destruct (Hlog t' Ht') as (x' & Hx' & Hin). exists x'.
      split; [exact Hx' |]. apply in_or_app. right. exact Hin.
Qed.

Lemma run_pipeline_survives_a_failing_provider_witness :
  exists l,
    run_pipeline Sample.provider (Sample.driver true) ["UNKNOWN"; "UNKNOWN"]
                 "2024-01-01" "2024-01-31" Sample.earlier_run
    = (Return tt, Sample.earlier_run, l) /\
    forall t, In t ["UNKNOWN"; "UNKNOWN"] ->
              exists x, Sample.provider t "2024-01-01" "2024-01-31" = Raise x /\
                        In (ERROR, ErrorFetching t x) l.
Proof.
  apply (run_pipeline_survives_a_failing_provider
           Sample.provider (Sample.driver true) ["UNKNOWN"; "UNKNOWN"]
           "2024-01-01" "2024-01-31" Sample.earlier_run).
  intros t [<- | [<- | []]]; eexists; reflexivity.
Defined.

(** X12.  A ticker for which the provider returns a frame with no rows
    (a range without trading days) is no failure: its iteration returns,
    the connection is untouched, and the log has the fetch and three
    warnings that there was nothing to validate, process and store. *)
Theorem run_ticker_with_no_rows_stores_nothing
        (history : string -> string -> string -> outcome IndexedFrame)
        (driver : OracleDB.Driver)
        (ticker start_date end_date : string) (f : IndexedFrame)
        (c : OracleDB.Connection) :
  history ticker start_date end_date = Return f ->
  existsb (String.eqb (index_name f)) (labels f) = false ->
  indexed_rows f = [] ->
  run_ticker history driver ticker start_date end_date c
  = (Return tt, c,
     [(INFO, StartingPipeline ticker);
      (INFO, FetchedData ticker start_date end_date);
      (WARNING, NoDataToValidate); (WARNING, NoDataToProcess);
      (WARNING, NoDataToStore)]).
Proof.
  intros Hh Hn Hr.
  assert (Hf : fetch_stock_data history ticker start_date end_date
               = (Return (Some (mkFrame (add_label "Ticker"
                                                   (index_name f :: labels f))
                                        [])),
                  [(INFO, FetchedData ticker start_date end_date)])).
  { unfold fetch_stock_data, fetch_body. rewrite Hh.
    cbn [lift_outcome bind ret PyMonad_Logged]. unfold reset_index.
    rewrite Hn, Hr. reflexivity. }
  rewrite (run_ticker_stages history driver _ _ _ c _ None None _
             [(WARNING, NoDataToValidate)] [(WARNING, NoDataToProcess)] Hf);
    [reflexivity | | reflexivity].
  unfold validate_data, empty. cbn [columns rows].
  destruct (add_label "Ticker" (index_name f :: labels f)); reflexivity.
Qed.

Lemma run_ticker_with_no_rows_stores_nothing_witness :
  run_ticker (fun _ _ _ => Return (Sample.daily [])) (Sample.driver true)
             "AAPL" "2024-01-01" "2024-01-01" Sample.earlier_run
  = (Return tt, Sample.earlier_run,
     [(INFO, StartingPipeline "AAPL");
      (INFO, FetchedData "AAPL" "2024-01-01" "2024-01-01");
      (WARNING, NoDataToValidate); (WARNING, NoDataToProcess);
      (WARNING, NoDataToStore)]).
Proof.
  apply (run_ticker_with_no_rows_stores_nothing
           (fun _ _ _ => Return (Sample.daily [])) (Sample.driver true)
           "AAPL" "2024-01-01" "2024-01-01" (Sample.daily []));
    reflexivity.
Defined.

(* ===================================================================== *)
(** * main *)
(* ===================================================================== *)




(** The run of [main] on the sample provider and a database that an
    earlier run left: the constructor empties the table, the three
    tickers are stored, and the connection is closed. *)
Lemma main_on_the_sample_provider :
  main (Return Sample.earlier_run) (fun _ => Return tt) Sample.provider
       (Sample.driver true) "2024-01-01" "2024-01-31"
  = (Return tt,
     [(INFO, ConnectedToDatabase); (INFO, FromPipeline TableCreated)]
     ++ from_pipeline
          (flat_map (fun t => [(INFO, StartingPipeline t);
                               (INFO, FetchedData t "2024-01-01" "2024-01-31");
                               (INFO, ValidationCompleted);
                               (INFO, DataProcessed); (INFO, DataStored)])
                    main_tickers)
     ++ [(INFO, ConnectionClosed)]).
Proof.
  vm_compute. reflexivity.
Qed.

(** X14.  Running a sequence of tickers in one call is running its first
    part and then, on the connection that this leaves, the rest: the
    outcome and the connection are those of the second run and the logs
    follow each other, unless the first part raises, which ends the run
    there. *)
Theorem run_pipeline_in_two_calls
        (history : string -> string -> string -> outcome IndexedFrame)
        (driver : OracleDB.Driver)
        (first rest : list string) (start_date end_date : string)
        (c : OracleDB.Connection) :
  run_pipeline history driver (first ++ rest) start_date end_date c
  = match run_pipeline history driver first start_date end_date c with
    | (Return _, c1, l1) =>
        let '(o, c2, l2) :=
          run_pipeline history driver rest start_date end_date c1 in
        (o, c2, l1 ++ l2)
    | (Raise x, c1, l1) => (Raise x, c1, l1)
    end.
Proof.
  revert c. induction first as [| t first IH]; intros c.
  - cbn [app]. cbn [run_pipeline ret PyMonad_Py].
    destruct (run_pipeline history driver rest start_date end_date c)
      as [[o c2] l2]. reflexivity.
  - cbn [app]. rewrite !run_pipeline_cons.
    destruct (run_ticker history driver t start_date end_date c)
      as [[[u | x] c1] l1]; [| reflexivity].
    rewrite IH.
    destruct (run_pipeline history driver first start_date end_date c1)
      as [[[u' | x] c2] l2]; [| reflexivity].
    destruct (run_pipeline history driver rest start_date end_date c2)
      as [[o c3] l3].
    rewrite app_assoc. reflexivity.
Qed.
